(** * OpenAIImagesIO: request shaping and response normalisation

    A shallow embedding of the [OpenAIImagesIO] adapter
    (class [OpenAIImagesIO implements ServiceIO], the TypeScript unit stored
    behind [captureFiles.js]) and the properties its specification states
    about it.

    Conventions of the embedding.
    - A JavaScript string is a [string]; every character stands for one
      UTF-16 code unit of the range 0..255.
    - A JavaScript number is an integer ([Z]), as the counts and limits of
      the code are; fractions, NaN, the infinities and integers past the
      safe range of a double are outside the model.
    - An optional property ([p?: T]) is an [option T]; [None] is an absent
      (or [undefined]) property. Where the code tells a property that is
      absent from one that is set to [undefined] (the properties of an info
      modal, which [Object.assign] copies), the property is a
      [Property T].
    - Objects that the code shares and mutates (the caller's configuration
      object, the raw body template, the per-request body copy) live in a
      store of objects addressed by references; everything else is a value.
    - Calls to collaborators whose code is not part of this unit (the HTTP
      transport, the key verification success and failure handlers) are
      recorded in a log. *)

From stdpp Require Import gmap strings list fin_maps pretty.
From Stdlib Require Import ZArith Ascii String.

Open Scope string_scope.
Open Scope Z_scope.

(* ===================================================================== *)
(** * JavaScript strings *)
(* ===================================================================== *)

Module JsString.

(** White space and line terminators of ECMAScript in the code-unit range
    of the model: TAB, LF, VT, FF, CR, SPACE and NO-BREAK SPACE. *)
Definition is_white_space (c : ascii) : bool :=
  match N_of_ascii c with
  | 9 | 10 | 11 | 12 | 13 | 32 | 160 => true
  | _ => false
  end%N.

Fixpoint trimStart (s : string) : string :=
  match s with
  | EmptyString => EmptyString
  | String c r => if is_white_space c then trimStart r else s
  end.

Fixpoint trimEnd (s : string) : string :=
  match s with
  | EmptyString => EmptyString
  | String c r =>
      match trimEnd r with
      | EmptyString => if is_white_space c then EmptyString else String c EmptyString
      | r' => String c r'
      end
  end.

(** [String.prototype.trim]. *)
Definition trim (s : string) : string := trimEnd (trimStart s).

Fixpoint take (n : nat) (s : string) : string :=
  match n, s with
  | S n', String c r => String c (take n' r)
  | _, _ => EmptyString
  end.

Fixpoint drop (n : nat) (s : string) : string :=
  match n, s with
  | S n', String _ r => drop n' r
  | _, _ => s
  end.

(** [String.prototype.substring(start, end)]: both indices are clamped to
    [0 .. length], and swapped when [start] exceeds [end]. *)
Definition substring (s : string) (start end_ : Z) : string :=
  let len := Z.of_nat (String.length s) in
  let clamp (i : Z) := Z.min (Z.max i 0) len in
  let from := Z.min (clamp start) (clamp end_) in
  let to := Z.max (clamp start) (clamp end_) in
  take (Z.to_nat (to - from)) (drop (Z.to_nat from) s).

(** Every character is white space: the condition under which [trim]
    yields the empty string. *)
Fixpoint blank (s : string) : bool :=
  match s with
  | EmptyString => true
  | String c r => is_white_space c && blank r
  end.

End JsString.

(* ===================================================================== *)
(** * Data model *)
(* ===================================================================== *)

(** A browser [File]: the code only passes files on, it never looks into
    them. *)
Record File := { file_name : string; file_bytes : list Byte.byte }.

(** [MessageContent] and [Messages] (types/messages, views/chat/messages):
    the unit reads [messages.messages] and each message's [content]. *)
Record MessageContent := { role : string; content : string }.
Record Messages := { messages : list MessageContent }.

(** [RequestSettings] (types/requestSettings): the unit reads [url] and
    [headers]. *)
Module RequestSettings.
Record t := mk { url : option string; headers : option (gmap string string) }.
(** The object literal [{}]. *)
Definition empty : t := {| url := None; headers := None |}.
End RequestSettings.

(** An own property as [Object.assign] sees it: absent, set to
    [undefined], or set to a value. *)
Inductive Property (A : Type) :=
| Absent
| Undefined
| Value (a : A).
Arguments Absent {A}.
Arguments Undefined {A}.
Arguments Value {A} a.

(** The value that reading the property gives, [undefined] as [None]. *)
Definition valueOf {A : Type} (p : Property A) : option A :=
  match p with
  | Value a => Some a
  | _ => None
  end.

(** [FileAttachments] (types/fileAttachments) with its [infoModal]. *)
Record InfoModal := {
  textMarkDown : Property string;
  openModalOnce : Property bool;
}.

Record FileAttachments := {
  acceptedFormats : option string;
  maxNumberOfFiles : option Z;
  infoModal : option InfoModal;
}.

(** [type Images = ImagesConfig & {files?: FileAttachments}]. *)
Record Images := {
  files : option FileAttachments;
  infoModalTextMarkUp : option string;
}.

(** ** Truthiness *)

Definition truthy_string (s : option string) : bool :=
  match s with
  | Some s => negb (String.eqb s EmptyString)
  | None => false
  end.

Definition truthy_number (n : option Z) : bool :=
  match n with
  | Some n => negb (n =? 0)
  | None => false
  end.

(** [a || b] on an optional string [a]. *)
Definition string_or (a : option string) (b : string) : string :=
  match a with
  | Some s => if String.eqb s EmptyString then b else s
  | None => b
  end.

(** A template literal writes an [undefined] value as the word. *)
Definition template_string (a : option string) : string :=
  match a with
  | Some s => s
  | None => "undefined"
  end.

(** ** Objects in the store

    A property of a configuration object holds a scalar, the files policy
    (property [files]) or the request settings (property [request]). *)
Inductive JsValue :=
| JsUndefined
| JsNull
| JsBoolean (b : bool)
| JsNumber (n : Z)
| JsString (s : string)
| JsFiles (f : FileAttachments)
| JsRequest (r : RequestSettings.t).

(** Own enumerable properties in insertion order. *)
Definition JsObject := list (string * JsValue).

Module Obj.

(** [o[k]]; an absent property reads [undefined]. *)
Fixpoint get (k : string) (o : JsObject) : JsValue :=
  match o with
  | [] => JsUndefined
  | (k', v) :: r => if String.eqb k k' then v else get k r
  end.

(** [o[k] = v]: an existing property keeps its place, a new one goes
    last. *)
Fixpoint set (k : string) (v : JsValue) (o : JsObject) : JsObject :=
  match o with
  | [] => [(k, v)]
  | (k', v') :: r =>
      if String.eqb k k' then (k', v) :: r else (k', v') :: set k v r
  end.

(** [delete o[k]]. *)
Fixpoint delete (k : string) (o : JsObject) : JsObject :=
  match o with
  | [] => []
  | (k', v) :: r =>
      if String.eqb k k' then delete k r else (k', v) :: delete k r
  end.

(** [Object.keys(o)] of an object whose keys are not integer-like: the
    keys in insertion order. ([Object.keys] lists integer-like keys first,
    in ascending order; the parameters of the images API have none.) *)
Definition keys (o : JsObject) : list string := map fst o.

(** [String(v)]; a number is written in its decimal digits, as [String]
    writes every integer below 1e21. *)
Definition toString (v : JsValue) : string :=
  match v with
  | JsUndefined => "undefined"
  | JsNull => "null"
  | JsBoolean true => "true"
  | JsBoolean false => "false"
  | JsNumber n => pretty n
  | JsString s => s
  | JsFiles _ | JsRequest _ => "[object Object]"
  end.

(** [JSON.parse(JSON.stringify(o))]: a property whose value is [undefined]
    is left out; every other value of the model is written and read back
    as it is. *)
Fixpoint jsonCopy (o : JsObject) : JsObject :=
  match o with
  | [] => []
  | (k, JsUndefined) :: r => jsonCopy r
  | (k, v) :: r => (k, v) :: jsonCopy r
  end.

(** [o.files] and [o.request] of a configuration object. *)
Definition files (o : JsObject) : option FileAttachments :=
  match get "files" o with
  | JsFiles f => Some f
  | _ => None
  end.

Definition request (o : JsObject) : option RequestSettings.t :=
  match get "request" o with
  | JsRequest r => Some r
  | _ => None
  end.

End Obj.

(** [FormData]: the appended entries in order; a value is a file or a
    string. *)
Inductive FormDataEntryValue :=
| FormFile (f : File)
| FormString (s : string).

Definition FormData := list (string * FormDataEntryValue).

(** The binary parts of a form. *)
Definition binaryParts (fd : FormData) : list (string * File) :=
  omap (fun e => match e.2 with FormFile f => Some (e.1, f) | FormString _ => None end) fd.

(** The body handed to the transport: the content of a JSON object (the
    transport stringifies it) or a multipart form. *)
Inductive RequestBody :=
| JsonBody (o : JsObject)
| FormDataBody (fd : FormData).

(** [RequestDetails] (types/requestInterceptor): what a request interceptor
    maps. *)
Module RequestDetails.
Record t := mk { body : RequestBody; headers : option (gmap string string) }.
End RequestDetails.

(** One call of the request executor [HTTPRequest.request], with what the
    executor reads from the adapter at the call. *)
Module Dispatch.
Record t := mk {
  url : string;
  requestSettings : RequestSettings.t;
  body : RequestBody;
  stringifyBody : bool;
  (** made through [RequestHeaderUtils.temporarilyRemoveContentType] *)
  contentTypeRemoved : bool;
}.
End Dispatch.

(** Calls that leave the unit. The handlers of a key verification are the
    caller's code: a handler call is recorded with the request settings the
    adapter holds at the call. *)
Inductive Event :=
| Requested (d : Dispatch.t)
| OnLoad
| OnSuccess (key : string) (held : RequestSettings.t)
| OnFail (message : string) (held : RequestSettings.t).

(** What a statement can throw. [DanglingReference] is no JavaScript
    exception: it marks a reference of the model outside the store. *)
Inductive Exception :=
| Error (message : string)
| ThrownValue (v : string)
| TypeError
| DanglingReference (ref : nat).

Inductive Completion (A : Type) :=
| Normal (a : A)
| Throw (e : Exception).
Arguments Normal {A} a.
Arguments Throw {A} e.

(** The raw decoded response [OpenAIImageResult] (types/openAIResult): the
    unit reads [result.error], its [message], and, whenever there is no
    error, [result.data] without any guard, each entry's [url] and
    [b64_json]. [data] is therefore an array in every response; a response
    with an error is never asked for it. *)
Module ImageData.
Record t := mk { url : option string; b64_json : option string }.
End ImageData.

Module ServiceError.
Record t := mk { code : option string; message : string }.
End ServiceError.

Module OpenAIImageResult.
Record t := mk { data : list ImageData.t; error : option ServiceError.t }.
End OpenAIImageResult.

(** [ImageResults]: an entry handed back as it is, or a [{base64}]
    object. *)
Inductive ImageResult :=
| EntryResult (entry : ImageData.t)
| Base64Result (base64 : string).

(** The [url] and [base64] properties of a result. *)
Definition ImageResult_url (r : ImageResult) : option string :=
  match r with
  | EntryResult e => ImageData.url e
  | Base64Result _ => None
  end.

Definition ImageResult_base64 (r : ImageResult) : option string :=
  match r with
  | EntryResult _ => None
  | Base64Result b => Some b
  end.

(** The configuration that the constructor reads, [openAI.completions]: a
    boolean, or an object of the store. *)
Inductive OpenAIConfig :=
| ConfigBoolean (b : bool)
| ConfigObject (ref : nat).

Record OpenAI := { completions : option OpenAIConfig }.

Definition ValidateMessageBeforeSending : Type :=
  string -> option (list File) -> bool.

Definition RequestInterceptor : Type := RequestDetails.t -> RequestDetails.t.

(** The properties of [AiAssistant] that the constructor reads. *)
Record AiAssistant := {
  openAI : option OpenAI;
  requestInterceptor : option RequestInterceptor;
  inputCharacterLimit : option Z;
  validateMessageBeforeSending : option ValidateMessageBeforeSending;
}.

(** What the unit imports from modules that are not part of it. *)
Record Imports := {
  (** [OpenAIUtils.IMAGES_MAX_CHAR_LENGTH] *)
  IMAGES_MAX_CHAR_LENGTH : Z;
  (** [BASE_64_PREFIX] of utils/element/imageUtils *)
  BASE_64_PREFIX : string;
  (** [render] of the renderer made by [RemarkableConfig.createNew()] *)
  render : string -> string;
  (** name and value of the authentication header that
      [OpenAIUtils.buildRequestSettings] writes for a key *)
  AUTH_HEADER : string;
  authHeaderValue : string -> string;
}.

(* ===================================================================== *)
(** * The adapter *)
(* ===================================================================== *)

Module OpenAIImagesIO.

Definition IMAGE_GENERATION_URL : string := "https://api.openai.com/v1/images/generations".
Definition IMAGE_VARIATIONS_URL : string := "https://api.openai.com/v1/images/variations".
Definition IMAGE_EDIT_URL : string := "https://api.openai.com/v1/images/edits".
Definition MODAL_MARKDOWN : string := "
1 image:

- With text - edits image based on the text
- No text - creates a variation of the image

2 images:

- The second image needs to be a copy of the first with a transparent area where the edit should take place.
Add text to describe the required modification.

Click here for [more info](https://platform.openai.com/docs/guides/images/introduction).
  ".

(** The fields of an instance. [_raw_body] is a reference into the store. *)
Record t := mk {
  url : string;
  canSendMessage_ : ValidateMessageBeforeSending;
  images : Images;
  _maxCharLength : Z;
  requestSettings : RequestSettings.t;
  _raw_body : nat;
  requestInterceptor_ : RequestInterceptor;
}.

(** ** State and effects

    A method runs on an instance ([this]), the store of shared objects
    and the log of calls that left the unit. A statement completes
    normally with a value or throws; the state it leaves is kept either
    way. *)
Record State := mkState {
  this : t;
  heap : list JsObject;
  log : list Event;
}.

Definition M (A : Type) : Type := State -> Completion A * State.

Definition ret {A} (a : A) : M A := fun s => (Normal a, s).

Definition bind {A B} (m : M A) (k : A -> M B) : M B :=
  fun s =>
    match m s with
    | (Normal a, s') => k a s'
    | (Throw e, s') => (Throw e, s')
    end.

Definition throw {A} (e : Exception) : M A := fun s => (Throw e, s).

Declare Scope js_scope.
Delimit Scope js_scope with js.
Notation "x <- m ;; k" := (bind m (fun x => k))
  (at level 100, m at next level, right associativity) : js_scope.
Notation "m ;;; k" := (bind m (fun _ => k))
  (at level 100, right associativity) : js_scope.
Open Scope js_scope.

Definition getThis : M t := fun s => (Normal (this s), s).

Definition setThis (f : t -> t) : M unit :=
  fun s => (Normal tt, {| this := f (this s); heap := heap s; log := log s |}).

Definition emit (e : Event) : M unit :=
  fun s => (Normal tt, {| this := this s; heap := heap s; log := (log s ++ [e])%list |}).

(** A new object of the store: its reference is the next free one. *)
Definition alloc (o : JsObject) : M nat :=
  fun s => (Normal (List.length (heap s)),
            {| this := this s; heap := (heap s ++ [o])%list; log := log s |}).

Definition read (ref : nat) : M JsObject :=
  fun s =>
    match heap s !! ref with
    | Some o => (Normal o, s)
    | None => (Throw (DanglingReference ref), s)
    end.

(** Mutation in place of the object behind a reference. *)
Definition update (ref : nat) (f : JsObject -> JsObject) : M unit :=
  fun s =>
    match heap s !! ref with
    | Some o => (Normal tt, {| this := this s; heap := <[ref := f o]> (heap s); log := log s |})
    | None => (Throw (DanglingReference ref), s)
    end.

(** Field assignments [this.f = v]. *)
Definition with_url (v : string) (a : t) : t :=
  mk v (canSendMessage_ a) (images a) (_maxCharLength a) (requestSettings a)
     (_raw_body a) (requestInterceptor_ a).
Definition with_canSendMessage (v : ValidateMessageBeforeSending) (a : t) : t :=
  mk (url a) v (images a) (_maxCharLength a) (requestSettings a)
     (_raw_body a) (requestInterceptor_ a).
Definition with_images (v : Images) (a : t) : t :=
  mk (url a) (canSendMessage_ a) v (_maxCharLength a) (requestSettings a)
     (_raw_body a) (requestInterceptor_ a).
Definition with_maxCharLength (v : Z) (a : t) : t :=
  mk (url a) (canSendMessage_ a) (images a) v (requestSettings a)
     (_raw_body a) (requestInterceptor_ a).
Definition with_requestSettings (v : RequestSettings.t) (a : t) : t :=
  mk (url a) (canSendMessage_ a) (images a) (_maxCharLength a) v
     (_raw_body a) (requestInterceptor_ a).
Definition with_raw_body (v : nat) (a : t) : t :=
  mk (url a) (canSendMessage_ a) (images a) (_maxCharLength a) (requestSettings a)
     v (requestInterceptor_ a).
Definition with_requestInterceptor (v : RequestInterceptor) (a : t) : t :=
  mk (url a) (canSendMessage_ a) (images a) (_maxCharLength a) (requestSettings a)
     (_raw_body a) v.

(** ** Static members *)

(** [!!files?.[0] || text.trim() !== ''] *)
Definition canSendMessage (text : string) (files : option (list File)) : bool :=
  match files with
  | Some (_ :: _) => true
  | _ => false
  end
  || negb (String.eqb (JsString.trim text) "").

(** [Object.assign(target, source)] on info modals: every own property of
    the source is written to the target, also one that is set to
    [undefined]; a property that the source lacks keeps the target's; an
    [undefined] source changes nothing. *)
Definition InfoModal_assign (target : InfoModal) (source : option InfoModal) : InfoModal :=
  match source with
  | None => target
  | Some src =>
      {| textMarkDown :=
           match textMarkDown src with
           | Absent => textMarkDown target
           | written => written
           end;
         openModalOnce :=
           match openModalOnce src with
           | Absent => openModalOnce target
           | written => written
           end |}
  end.

Section WithImports.

Variable I : Imports.

(** [files_] is the files policy of the caller. The statements change
    [_images] and the objects below it in place; the function returns
    [_images] as they leave it. Each override is under a test of
    truthiness: [if (files.acceptedFormats)], [if (files.maxNumberOfFiles)]. *)
Definition processImagesConfig (files_ : FileAttachments) (_images : Images) : Images :=
  match files _images with
  | Some ifiles =>
      let '(ifiles, markup) :=
        match infoModal ifiles with
        | Some modal =>
            let modal' := InfoModal_assign modal (infoModal files_) in
            let markdown :=
              string_or (infoModal files_ ≫= fun given => valueOf (textMarkDown given))
                MODAL_MARKDOWN in
            ({| acceptedFormats := acceptedFormats ifiles;
                maxNumberOfFiles := maxNumberOfFiles ifiles;
                infoModal := Some modal' |},
             Some (render I markdown))
        | None => (ifiles, infoModalTextMarkUp _images)
        end in
      let ifiles :=
        if truthy_string (acceptedFormats files_)
        then {| acceptedFormats := acceptedFormats files_;
                maxNumberOfFiles := maxNumberOfFiles ifiles;
                infoModal := infoModal ifiles |}
        else ifiles in
      let ifiles :=
        if truthy_number (maxNumberOfFiles files_)
        then {| acceptedFormats := acceptedFormats ifiles;
                maxNumberOfFiles := maxNumberOfFiles files_;
                infoModal := infoModal ifiles |}
        else ifiles in
      {| files := Some ifiles; infoModalTextMarkUp := markup |}
  | None => _images
  end.

(** [delete config.files; delete config.request] on the object behind
    [config]. *)
Definition cleanConfig (config : nat) : M unit :=
  update config (Obj.delete "files") ;;;
  update config (Obj.delete "request").

(** Modelled from the spec: [OpenAIUtils.buildRequestSettings]
    (services/openAI/utils/openAIUtils) is not part of the unit. The
    spec has the key merged "into the request settings as an
    authentication header", a later key replacing "the prior merged
    header": the header of the key is written over the headers that
    the settings already carry, and the rest of the settings is
    kept. *)
Definition OpenAIUtils_buildRequestSettings
    (key : string) (requestSettings_ : RequestSettings.t) : RequestSettings.t :=
  {| RequestSettings.url := RequestSettings.url requestSettings_;
     RequestSettings.headers :=
       Some (<[AUTH_HEADER I := authHeaderValue I key]>
               (default ∅ (RequestSettings.headers requestSettings_))) |}.

(** The field initializers of the class; [raw] is the new object [{}]
    of [_raw_body]. [requestInterceptor] is declared without an
    initializer and assigned by the constructor before anything reads
    it. *)
Definition fieldInitializers (raw : nat) : t :=
  {| url := "";
     canSendMessage_ := canSendMessage;
     images :=
       {| files := Some {| acceptedFormats := Some ".png";
                           maxNumberOfFiles := Some 2;
                           infoModal := Some {| textMarkDown := Absent;
                                                openModalOnce := Value true |} |};
          infoModalTextMarkUp := None |};
     _maxCharLength := IMAGES_MAX_CHAR_LENGTH I;
     requestSettings := RequestSettings.empty;
     _raw_body := raw;
     requestInterceptor_ := fun details => details |}.

(** The body of the constructor. [config] is [openAI?.completions]; the
    request settings of the caller are [config.request] when [config] is an
    object, and [{}] otherwise; they are assigned, merged with the key,
    under [if (key)] only. An object [config] has its files policy
    processed, loses [files] and [request] and becomes [_raw_body] itself;
    otherwise the markup of the built-in modal text is rendered. *)
Definition constructor (aiAssistant : AiAssistant) (key : option string) : M unit :=
  (if truthy_number (inputCharacterLimit aiAssistant)
   then setThis (with_maxCharLength (default 0 (inputCharacterLimit aiAssistant)))
   else ret tt) ;;;
  setThis (with_requestInterceptor
             (default (fun details => details) (requestInterceptor aiAssistant))) ;;;
  let config := openAI aiAssistant ≫= completions in
  requestSettings_ <-
    match config with
    | Some (ConfigObject c) =>
        o <- read c ;; ret (default RequestSettings.empty (Obj.request o))
    | _ => ret RequestSettings.empty
    end ;;
  (if truthy_string key
   then setThis (with_requestSettings
                   (OpenAIUtils_buildRequestSettings (default "" key) requestSettings_))
   else ret tt) ;;;
  match config with
  | Some (ConfigObject c) =>
      o <- read c ;;
      match Obj.files o with
      | Some f =>
          self <- getThis ;;
          setThis (with_images (processImagesConfig f (images self)))
      | None => ret tt
      end ;;;
      cleanConfig c ;;;
      setThis (with_raw_body c)
  | _ =>
      self <- getThis ;;
      match files (images self) ≫= infoModal with
      | Some _ =>
          setThis (with_images {| files := files (images self);
                                  infoModalTextMarkUp := Some (render I MODAL_MARKDOWN) |})
      | None => ret tt
      end
  end ;;;
  match validateMessageBeforeSending aiAssistant with
  | Some validate => setThis (with_canSendMessage validate)
  | None => ret tt
  end.

(** [new OpenAIImagesIO(aiAssistant, key)] in a store [h]: the field
    initializers, then the constructor. *)
Definition new (aiAssistant : AiAssistant) (key : option string)
    (h : list JsObject) (l : list Event) : Completion unit * State :=
  constructor aiAssistant key
    {| this := fieldInitializers (List.length h); heap := (h ++ [[]])%list; log := l |}.

(** [this.requestSettings = OpenAIUtils.buildRequestSettings(key,
    this.requestSettings); onSuccess(key)] *)
Definition addKey (onSuccess : string -> M unit) (key : string) : M unit :=
  setThis (fun self =>
             with_requestSettings
               (OpenAIUtils_buildRequestSettings key (requestSettings self)) self) ;;;
  onSuccess key.

(** The handlers of a key verification ([KeyVerificationHandlers] of
    services/serviceIO) and the input element that holds the candidate
    key. *)
Record KeyVerificationHandlers := {
  onSuccess : string -> M unit;
  onFail : string -> M unit;
  onLoad : M unit;
}.

Record HTMLInputElement := { value : string }.

(** The answer of the remote service to a key. *)
Inductive Verification :=
| Accepted
| Rejected (message : string).

(** Modelled from the spec: [OpenAIUtils.verifyKey]
    (services/openAI/utils/openAIUtils) is not part of the unit. The
    spec has it validate the candidate key against the remote service,
    "a loading-state handler is invoked to bracket the in-flight
    attempt", then "on success ... invoke the success handler with the
    key; on failure, invoke the failure handler with the error". The
    answer of the service is the argument [remote]; the attempt is run
    in one piece, nothing else of the adapter runs while it is in
    flight. *)
Definition OpenAIUtils_verifyKey (inputElement : HTMLInputElement) (remote : Verification)
    (onSuccess_ : string -> M unit) (onFail_ : string -> M unit) (onLoad_ : M unit) : M unit :=
  onLoad_ ;;;
  match remote with
  | Accepted => onSuccess_ (value inputElement)
  | Rejected message => onFail_ message
  end.

(** [OpenAIUtils.verifyKey(inputElement, this.addKey.bind(this,
    keyVerificationHandlers.onSuccess), keyVerificationHandlers.onFail,
    keyVerificationHandlers.onLoad)]; [remote] is the answer that the
    model of [OpenAIUtils.verifyKey] takes. *)
Definition verifyKey (inputElement : HTMLInputElement) (remote : Verification)
    (keyVerificationHandlers : KeyVerificationHandlers) : M unit :=
  OpenAIUtils_verifyKey inputElement remote
    (addKey (onSuccess keyVerificationHandlers))
    (onFail keyVerificationHandlers) (onLoad keyVerificationHandlers).

(** [body] is a reference; [image] and [mask] are [files[0]] and
    [files[1]], [undefined] past the end of the array (an [undefined]
    value is appended as the word). *)
Definition createFormDataBody (body : nat) (image : option File) (mask : option File)
    : M FormData :=
  o <- read body ;;
  let formData : FormData :=
    [("image", match image with Some f => FormFile f | None => FormString "undefined" end)] in
  let formData :=
    match mask with
    | Some m => (formData ++ [("mask", FormFile m)])%list
    | None => formData
    end in
  ret (formData ++
       map (fun key => (key, FormString (Obj.toString (Obj.get key o)))) (Obj.keys o))%list.

(** [messages[messages.length - 1].content]; reading [content] of
    [undefined] throws. *)
Definition lastContent (messages_ : list MessageContent) : M string :=
  match last messages_ with
  | Some m => ret (content m)
  | None => throw TypeError
  end.

(** [bodyCopy] is a new object, [JSON.parse(JSON.stringify(body))]; the
    test trims the text of the latest message, the prompt is cut from the
    text itself: [mostRecentMessageText.substring(0, this._maxCharLength)]. *)
Definition preprocessBody (body : nat) (messages_ : list MessageContent) : M nat :=
  o <- read body ;;
  bodyCopy <- alloc (Obj.jsonCopy o) ;;
  text <- lastContent messages_ ;;
  if negb (String.eqb (JsString.trim text) "")
  then
    mostRecentMessageText <- lastContent messages_ ;;
    self <- getThis ;;
    let processedMessage :=
      JsString.substring mostRecentMessageText 0 (_maxCharLength self) in
    update bodyCopy (Obj.set "prompt" (JsString processedMessage)) ;;;
    ret bodyCopy
  else ret bodyCopy.

(** The body argument of the request executor. *)
Inductive BodyArgument :=
| BodyObject (ref : nat)
| BodyFormData (formData : FormData).

(** Modelled from the spec: [HTTPRequest.request]
    (utils/HTTP/HTTPRequest) is not part of the unit. The spec has the
    request executor perform "the actual network call using
    [adapterContext.url] and [adapterContext.requestSettings]" on a body
    that is "a JSON-serializable structure or a multipart form": the
    call is recorded with the url and the request settings of the
    instance and the content of the body at the call.
    [contentTypeRemoved] tells a call made through
    [RequestHeaderUtils.temporarilyRemoveContentType]. *)
Definition HTTPRequest_request (contentTypeRemoved : bool)
    (body : BodyArgument) (stringifyBody : bool) : M unit :=
  sent <-
    match body with
    | BodyObject ref => o <- read ref ;; ret (JsonBody o)
    | BodyFormData formData => ret (FormDataBody formData)
    end ;;
  self <- getThis ;;
  emit (Requested {| Dispatch.url := url self;
                     Dispatch.requestSettings := requestSettings self;
                     Dispatch.body := sent;
                     Dispatch.stringifyBody := stringifyBody;
                     Dispatch.contentTypeRemoved := contentTypeRemoved |}).

(** Modelled from the spec: [RequestHeaderUtils.temporarilyRemoveContentType]
    (utils/HTTP/RequestHeaderUtils) is not part of the unit. The spec
    has the content-type header of the shared request settings
    "temporarily removed for the duration of that single call and
    restored (or left absent) afterward": the request runs marked as
    made without that header, and the settings of the instance are
    afterwards what they were. *)
Definition RequestHeaderUtils_temporarilyRemoveContentType
    (request : bool -> bool -> M unit) (stringifyBody : bool) : M unit :=
  request true stringifyBody.

(** [if (files[1] || <latest content>.trim() !== '')] is the edit branch:
    url, body copy and a form with [files[0]] and [files[1]]; the other
    branch is a variation: url and a form of [this._raw_body] with
    [files[0]]. The completion handlers are handed on to the request
    executor and are not modelled. *)
Definition callApiWithImage (messages_ : Messages) (files_ : list File) : M unit :=
  edit <-
    match files_ !! 1%nat with
    | Some _ => ret true
    | None =>
        text <- lastContent (messages messages_) ;;
        ret (negb (String.eqb (JsString.trim text) ""))
    end ;;
  formData <-
    (if edit : bool
     then
       setThis (fun self =>
                  with_url (string_or (RequestSettings.url (requestSettings self))
                                      IMAGE_EDIT_URL) self) ;;;
       self <- getThis ;;
       body <- preprocessBody (_raw_body self) (messages messages_) ;;
       createFormDataBody body (files_ !! 0%nat) (files_ !! 1%nat)
     else
       setThis (fun self =>
                  with_url (string_or (RequestSettings.url (requestSettings self))
                                      IMAGE_VARIATIONS_URL) self) ;;;
       self <- getThis ;;
       createFormDataBody (_raw_body self) (files_ !! 0%nat) None) ;;
  RequestHeaderUtils_temporarilyRemoveContentType
    (fun removed => HTTPRequest_request removed (BodyFormData formData)) false.

(** [if (!this.requestSettings?.headers) throw new Error(...)], then
    [if (files?.[0])] the call with an image, else the generation. The
    second test of the generation branch, [if (!this.requestSettings)],
    never fires: the field always holds an object. *)
Definition callApi (messages_ : Messages) (files_ : option (list File)) : M unit :=
  self <- getThis ;;
  match RequestSettings.headers (requestSettings self) with
  | None => throw (Error "Request settings have not been set up")
  | Some _ =>
      match files_ with
      | Some ((_ :: _) as attached) => callApiWithImage messages_ attached
      | _ =>
          setThis (fun self =>
                     with_url (string_or (RequestSettings.url (requestSettings self))
                                         IMAGE_GENERATION_URL) self) ;;;
          self <- getThis ;;
          body <- preprocessBody (_raw_body self) (messages messages_) ;;
          HTTPRequest_request false (BodyObject body) true
      end
  end.

(** [if (result.error) throw result.error.message], else the map over
    [result.data]: [if (imageData.url) return imageData], else
    [{base64: `${BASE_64_PREFIX}${imageData.b64_json}`}]. *)
Definition extractResultData (result : OpenAIImageResult.t) : Completion (list ImageResult) :=
  match OpenAIImageResult.error result with
  | Some e => Throw (ThrownValue (ServiceError.message e))
  | None =>
      Normal (map (fun imageData =>
                     if truthy_string (ImageData.url imageData)
                     then EntryResult imageData
                     else Base64Result
                            (BASE_64_PREFIX I ++ template_string (ImageData.b64_json imageData)))
                  (OpenAIImageResult.data result))
  end.

End WithImports.

End OpenAIImagesIO.

Import OpenAIImagesIO.

(* ===================================================================== *)
(** * The operations as the specification names them *)
(* ===================================================================== *)

(** The specification classifies a call into one of three operations
    (its table of section 4.3) and gives each its endpoint (section 4.4).
    These definitions follow the specification; the theorems below compare
    them with what [callApi] does. *)
Inductive Operation :=
| Generation
| Variation
| Edit.

Definition endpoint (op : Operation) : string :=
  match op with
  | Generation => IMAGE_GENERATION_URL
  | Variation => IMAGE_VARIATIONS_URL
  | Edit => IMAGE_EDIT_URL
  end.

Definition classify (text : string) (attached : list File) : Operation :=
  match attached with
  | [] => Generation
  | [_] => if String.eqb (JsString.trim text) "" then Variation else Edit
  | _ :: _ :: _ => Edit
  end.

(** The binary parts the specification requires of an operation's form. *)
Definition requiredParts (attached : list File) : list (string * File) :=
  match attached with
  | [] => []
  | [image] => [("image", image)]
  | image :: mask :: _ => [("image", image); ("mask", mask)]
  end.

(** The content of a resolved service configuration: the fields of the
    instance with the raw body template read out of the store. *)
Record ServiceContent := {
  content_images : Images;
  content_maxCharLength : Z;
  content_requestSettings : RequestSettings.t;
  content_raw_body : option JsObject;
  content_canSendMessage : ValidateMessageBeforeSending;
  content_requestInterceptor : RequestInterceptor;
}.

Definition serviceContent (s : State) : ServiceContent :=
  {| content_images := images (this s);
     content_maxCharLength := _maxCharLength (this s);
     content_requestSettings := requestSettings (this s);
     content_raw_body := heap s !! _raw_body (this s);
     content_canSendMessage := canSendMessage_ (this s);
     content_requestInterceptor := requestInterceptor_ (this s) |}.

(** The caller's configuration with its object read out of the store. *)
Definition configContent (aiAssistant : AiAssistant) (h : list JsObject)
    : option (option (bool + JsObject)) :=
  match openAI aiAssistant ≫= completions with
  | None => Some None
  | Some (ConfigBoolean b) => Some (Some (inl b))
  | Some (ConfigObject c) => o ← h !! c; Some (Some (inr o))
  end.

(** Handlers that only leave their call in the log. *)
Definition recordingHandlers : KeyVerificationHandlers :=
  {| onSuccess := fun key => self <- getThis ;; emit (OnSuccess key (requestSettings self));
     onFail := fun message => self <- getThis ;; emit (OnFail message (requestSettings self));
     onLoad := emit OnLoad |}.

(** ** What a send call builds

    The body copy, the form and the dispatch of a call, written as values:
    the run lemmas below show that [preprocessBody], [createFormDataBody]
    and [callApi] build them. *)

(** The copy of the template with the prompt of a text that is not
    blank. *)
Definition promptedCopy (maxCharLength : Z) (text : string) (template : JsObject) : JsObject :=
  if negb (String.eqb (JsString.trim text) "")
  then Obj.set "prompt" (JsString (JsString.substring text 0 maxCharLength))
         (Obj.jsonCopy template)
  else Obj.jsonCopy template.

Definition formEntries (o : JsObject) : FormData :=
  map (fun key => (key, FormString (Obj.toString (Obj.get key o)))) (Obj.keys o).

Definition formOf (image : File) (mask : option File) (o : JsObject) : FormData :=
  (("image", FormFile image)
   :: match mask with Some m => [("mask", FormFile m)] | None => [] end
   ++ formEntries o)%list.

Definition isGeneration (op : Operation) : bool :=
  match op with
  | Generation => true
  | _ => false
  end.

(** The objects a call adds to the store. *)
Definition copiesOf (op : Operation) (maxCharLength : Z) (text : string) (template : JsObject)
    : list JsObject :=
  match op with
  | Variation => []
  | _ => [promptedCopy maxCharLength text template]
  end.

Definition sentBody (maxCharLength : Z) (text : string) (attached : list File)
    (template : JsObject) : RequestBody :=
  match attached with
  | [] => JsonBody (promptedCopy maxCharLength text template)
  | image :: rest =>
      match classify text attached with
      | Variation => FormDataBody (formOf image None template)
      | _ => FormDataBody (formOf image (head rest) (promptedCopy maxCharLength text template))
      end
  end.

Definition dispatchOf (a : t) (text : string) (attached : list File) (template : JsObject)
    : Dispatch.t :=
  {| Dispatch.url :=
       string_or (RequestSettings.url (requestSettings a)) (endpoint (classify text attached));
     Dispatch.requestSettings := requestSettings a;
     Dispatch.body := sentBody (_maxCharLength a) text attached template;
     Dispatch.stringifyBody := isGeneration (classify text attached);
     Dispatch.contentTypeRemoved := negb (isGeneration (classify text attached)) |}.

(** [s'] has the template reference and the request settings of [s], and
    its store is the store of [s] with new objects after it: no object of
    [s] was changed. *)
Definition extends (s s' : State) : Prop :=
  _raw_body (this s') = _raw_body (this s)
  ∧ requestSettings (this s') = requestSettings (this s)
  ∧ ∃ extra, heap s' = (heap s ++ extra)%list.

(** [m] leaves the field [P] of the instance as it found it, however it
    completes. *)
Definition keeps {X A : Type} (P : t → X) (m : M A) : Prop :=
  ∀ s, P (this (m s).2) = P (this s).

(** The instance that the constructor leaves, written as a value: [config]
    is the content of the configuration object when the configuration is
    one, [raw] the reference of the raw body template. *)
Definition resolvedInstance (I : Imports) (aiAssistant : AiAssistant) (key : option string)
    (config : option JsObject) (raw : nat) : t :=
  {| url := "";
     canSendMessage_ := default canSendMessage (validateMessageBeforeSending aiAssistant);
     images :=
       match config with
       | Some o =>
           match Obj.files o with
           | Some policy => processImagesConfig I policy (images (fieldInitializers I raw))
           | None => images (fieldInitializers I raw)
           end
       | None =>
           {| files := files (images (fieldInitializers I raw));
              infoModalTextMarkUp := Some (render I MODAL_MARKDOWN) |}
       end;
     _maxCharLength :=
       if truthy_number (inputCharacterLimit aiAssistant)
       then default 0 (inputCharacterLimit aiAssistant)
       else IMAGES_MAX_CHAR_LENGTH I;
     requestSettings :=
       if truthy_string key
       then OpenAIUtils_buildRequestSettings I (default "" key)
              (default RequestSettings.empty (config ≫= Obj.request))
       else RequestSettings.empty;
     _raw_body := raw;
     requestInterceptor_ :=
       default (fun details => details) (requestInterceptor aiAssistant) |}.

(** The configuration object among the contents that [configContent]
    gives. *)
Definition objectOf (cfg : option (bool + JsObject)) : option JsObject :=
  match cfg with
  | Some (inr o) => Some o
  | _ => None
  end.

(** The content that the constructor resolves, as a value of the caller's
    settings, the key and the content of the configuration: the template
    is the configuration object without its [files] and [request], or the
    empty object. *)
Definition resolvedContent (I : Imports) (aiAssistant : AiAssistant) (key : option string)
    (config : option JsObject) : ServiceContent :=
  {| content_images := images (resolvedInstance I aiAssistant key config 0);
     content_maxCharLength := _maxCharLength (resolvedInstance I aiAssistant key config 0);
     content_requestSettings := requestSettings (resolvedInstance I aiAssistant key config 0);
     content_raw_body :=
       Some match config with
            | Some o => Obj.delete "request" (Obj.delete "files" o)
            | None => []
            end;
     content_canSendMessage := canSendMessage_ (resolvedInstance I aiAssistant key config 0);
     content_requestInterceptor :=
       requestInterceptor_ (resolvedInstance I aiAssistant key config 0) |}.

(** ** Values for the examples *)

Definition exampleImports : Imports :=
  {| IMAGES_MAX_CHAR_LENGTH := 1000;
     BASE_64_PREFIX := "data:image/png;base64,";
     render := fun markdown => "<p>" ++ markdown ++ "</p>";
     AUTH_HEADER := "Authorization";
     authHeaderValue := fun key => "Bearer " ++ key |}.

Definition imageFile : File := {| file_name := "image.png"; file_bytes := [] |}.
Definition maskFile : File := {| file_name := "mask.png"; file_bytes := [] |}.

Definition say (text : string) : Messages :=
  {| messages := [{| role := "user"; content := text |}] |}.

(** An assistant without any setting, and one whose configuration is the
    object behind reference 0. *)
Definition plainAssistant : AiAssistant :=
  {| openAI := None; requestInterceptor := None;
     inputCharacterLimit := None; validateMessageBeforeSending := None |}.

Definition configuredAssistant : AiAssistant :=
  {| openAI := Some {| completions := Some (ConfigObject 0) |};
     requestInterceptor := None;
     inputCharacterLimit := None; validateMessageBeforeSending := None |}.

(** A configuration with a files policy, request settings and two
    parameters of the body, and a store whose object 0 it is. *)
Definition exampleConfig : JsObject :=
  [("n", JsNumber 2);
   ("files", JsFiles {| acceptedFormats := None; maxNumberOfFiles := Some 5;
                        infoModal := None |});
   ("request", JsRequest {| RequestSettings.url := Some "https://proxy.example/images";
                            RequestSettings.headers := Some {["X-Team" := "art"]} |});
   ("size", JsString "256x256")].

Definition exampleStore : list JsObject := [exampleConfig].

(** Instances for the examples: one made with a key from the configuration
    of [exampleStore], one made without a key and without configuration. *)
Definition keyedState : State :=
  (new exampleImports configuredAssistant (Some "sk-1") exampleStore []).2.

Definition keylessState : State :=
  (new exampleImports plainAssistant None [] []).2.

(** The same construction once more, in the store that the first one
    left. *)
Definition rerunState : State :=
  (new exampleImports configuredAssistant (Some "sk-1") (heap keyedState) []).2.

(** A second caller whose configuration is an object of its own with the
    content of [exampleStore]'s, behind the next free reference of the
    store that the first construction left. *)
Definition secondAssistant : AiAssistant :=
  {| openAI := Some {| completions := Some (ConfigObject (List.length (heap keyedState))) |};
     requestInterceptor := None;
     inputCharacterLimit := None; validateMessageBeforeSending := None |}.

Definition secondStore : list JsObject := (heap keyedState ++ exampleStore)%list.

(** An instance made with a key and without configuration: headers, and
    no url of the caller. *)
Definition plainKeyedState : State :=
  (new exampleImports plainAssistant (Some "sk-1") [] []).2.

(** The names under which a body carries its values: the properties of a
    JSON body, the parts of a form. *)
Definition bodyNames (b : RequestBody) : list string :=
  match b with
  | JsonBody o => Obj.keys o
  | FormDataBody fd => map fst fd
  end.

(** The objects on which [Obj.keys] and [Obj.toString] are [Object.keys]
    and [String]: no key is integer-like (a key of digits only, which
    [Object.keys] would list before the others), and every number is a
    safe integer (below 2^53 in size, which [String] writes in its decimal
    digits). *)
Definition isDigit (c : ascii) : bool :=
  ((48 <=? N_of_ascii c) && (N_of_ascii c <=? 57))%N.

Fixpoint digitsOnly (k : string) : bool :=
  match k with
  | EmptyString => true
  | String c r => isDigit c && digitsOnly r
  end.

Definition integerLike (k : string) : bool :=
  negb (String.eqb k "") && digitsOnly k.

Definition plainKeys (o : JsObject) : bool :=
  forallb (fun k => negb (integerLike k)) (Obj.keys o).

Definition safeNumbers (o : JsObject) : bool :=
  forallb (fun p => match p.2 with
                    | JsNumber n => (- 2 ^ 53 <? n) && (n <? 2 ^ 53)
                    | _ => true
                    end) o.

(** A configuration with a parameter that is [undefined], and an instance
    made from it with a key. *)
Definition sparseConfig : JsObject := [("n", JsNumber 1); ("user", JsUndefined)].

Definition sparseState : State :=
  (new exampleImports configuredAssistant (Some "sk-1") [sparseConfig] []).2.

(** A caller whose predicate refuses every message, and a caller with a
    negative character limit. *)
Definition strictAssistant : AiAssistant :=
  {| openAI := None; requestInterceptor := None;
     inputCharacterLimit := None;
     validateMessageBeforeSending := Some (fun _ _ => false) |}.

Definition negativeAssistant : AiAssistant :=
  {| openAI := None; requestInterceptor := None;
     inputCharacterLimit := Some (-1); validateMessageBeforeSending := None |}.

(* ===================================================================== *)
(** * Properties *)
(* ===================================================================== *)

(** ** Strings *)

Lemma trimStart_empty_iff s :
  JsString.trimStart s = "" ↔ JsString.blank s = true.
Proof.
  induction s as [|c r IH]; simpl; [done|].
  destruct (JsString.is_white_space c); simpl; [done|].
  split; discriminate.
Qed.

Lemma trimEnd_empty_iff s :
  JsString.trimEnd s = "" ↔ JsString.blank s = true.
Proof.
  induction s as [|c r IH]; simpl; [done|].
  destruct (JsString.trimEnd r) eqn:E.
  - destruct (JsString.is_white_space c); simpl.
    + split; [intros _; by apply IH | done].
    + split; discriminate.
  - split; [discriminate|].
    intros [_ Hb]%andb_prop. apply IH in Hb. discriminate.
Qed.

Lemma trimStart_blank s :
  JsString.blank (JsString.trimStart s) = JsString.blank s.
Proof.
  induction s as [|c r IH]; simpl; [done|].
  destruct (JsString.is_white_space c) eqn:E; simpl; [done|].
  by rewrite E.
Qed.

(** [trim] yields the empty string exactly on a text of white space. *)
Lemma trim_empty_iff s :
  JsString.trim s = "" ↔ JsString.blank s = true.
Proof.
  unfold JsString.trim. rewrite trimEnd_empty_iff, trimStart_blank. done.
Qed.

Lemma length_take n s :
  String.length (JsString.take n s) = Nat.min n (String.length s).
Proof.
  revert s; induction n as [|n IH]; intros [|c r]; simpl; try done.
  by rewrite IH.
Qed.

Lemma take_all n s :
  (String.length s ≤ n)%nat → JsString.take n s = s.
Proof.
  revert s; induction n as [|n IH]; intros [|c r]; simpl; try done; try lia.
  intros H. rewrite IH; [done | lia].
Qed.

(** [text.substring(0, n)] is the prefix of [max n 0] characters. *)
Lemma substring_prefix s n :
  JsString.substring s 0 n = JsString.take (Z.to_nat n) s.
Proof.
  unfold JsString.substring.
  set (len := Z.of_nat (String.length s)).
  assert (0 ≤ len) by (unfold len; lia).
  replace (Z.min (Z.max 0 0) len) with 0 by lia.
  replace (Z.min 0 (Z.min (Z.max n 0) len)) with 0 by lia.
  replace (Z.to_nat 0) with 0%nat by done. simpl JsString.drop.
  replace (Z.max 0 (Z.min (Z.max n 0) len) - 0) with (Z.min (Z.max n 0) len) by lia.
  destruct (decide (n ≤ len)) as [Hle|Hgt].
  - f_equal. lia.
  - replace (Z.min (Z.max n 0) len) with len by lia.
    unfold len. rewrite Nat2Z.id.
    rewrite !take_all; [done | lia | lia].
Qed.

(** ** The send-eligibility gate *)

(** C6. The default send-eligibility predicate of the adapter is the
    function [canSendMessage]; for every text and every file list it is
    true exactly when a file is attached or the trimmed text is not empty.
    In particular it is false on [('', [])], true on [('hello', [])] and
    true on [('', [file])]. *)
Theorem canSendMessage_iff_file_or_text :
  (∀ (I : Imports) (raw : nat),
      canSendMessage_ (fieldInitializers I raw) = canSendMessage)
  ∧ (∀ (text : string) (attached : option (list File)),
      canSendMessage text attached = true
      ↔ (∃ file rest, attached = Some (file :: rest)) ∨ JsString.trim text ≠ "")
  ∧ canSendMessage "" (Some []) = false
  ∧ canSendMessage "hello" (Some []) = true
  ∧ (∀ file : File, canSendMessage "" (Some [file]) = true).
Proof.
  split; [done|]. split; [|done].
  intros text attached. unfold canSendMessage.
  rewrite orb_true_iff, negb_true_iff, String.eqb_neq.
  split.
  - intros [H|H]; [left | by right].
    destruct attached as [[|file rest]|]; try discriminate. eauto.
  - intros [(file & rest & ->)|H]; [by left | by right].
Qed.

(** ** The result normaliser *)

Section Normaliser.

Variable I : Imports.

(** C3. For a raw response without an error object the normaliser returns
    one result per image entry, in the order of the entries: an entry with
    a (non-empty) hosted URL is handed back, so that the result carries
    that [url] and no [base64]; every other entry becomes a [{base64}]
    object whose payload is the data-URI prefix followed by the entry's
    [b64_json], as a template literal writes it. *)
Theorem extractResultData_normalises (result : OpenAIImageResult.t) :
  OpenAIImageResult.error result = None →
  ∃ results,
    extractResultData I result = Normal results
    ∧ List.length results = List.length (OpenAIImageResult.data result)
    ∧ ∀ (i : nat) (entry : ImageData.t),
        OpenAIImageResult.data result !! i = Some entry →
        (∀ hosted, ImageData.url entry = Some hosted → hosted ≠ "" →
           results !! i = Some (EntryResult entry)
           ∧ ImageResult_url (EntryResult entry) = Some hosted
           ∧ ImageResult_base64 (EntryResult entry) = None)
        ∧ (ImageData.url entry = None ∨ ImageData.url entry = Some "" →
           results !! i
           = Some (Base64Result
                     (BASE_64_PREFIX I ++ template_string (ImageData.b64_json entry))))
        ∧ (∀ payload, ImageData.url entry = None →
           ImageData.b64_json entry = Some payload →
           results !! i = Some (Base64Result (BASE_64_PREFIX I ++ payload))).
Proof.
  intros Herr. unfold extractResultData. rewrite Herr.
  eexists. split; [reflexivity|]. split; [by rewrite length_map|].
  intros i entry Hi. rewrite list_lookup_fmap, Hi. simpl.
  split; [|split].
  - intros hosted Hu Hne. rewrite Hu. simpl.
    apply String.eqb_neq in Hne. by rewrite Hne.
  - intros [Hu|Hu]; rewrite Hu; done.
  - intros payload Hu Hp. rewrite Hu, Hp. done.
Qed.

(** C4. The normaliser throws exactly when the raw response carries an
    error object, and what it throws is the message of that object itself:
    the bare string, in no wrapper. A throw completes the call, so no
    result is produced with it. *)
Theorem extractResultData_throws_service_message
    (result : OpenAIImageResult.t) (thrown : Exception) :
  extractResultData I result = Throw thrown
  ↔ ∃ e, OpenAIImageResult.error result = Some e
         ∧ thrown = ThrownValue (ServiceError.message e).
Proof.
  unfold extractResultData.
  destruct (OpenAIImageResult.error result) as [e|]; split.
  - intros [= <-]. eauto.
  - intros (e' & [= <-] & ->). done.
  - discriminate.
  - intros (e' & [=] & _).
Qed.

End Normaliser.

(** The examples of the specification for a response without an error: a
    hosted URL and an inline payload. *)
Lemma extractResultData_examples :
  (∃ results,
     extractResultData exampleImports
       {| OpenAIImageResult.data :=
            [ImageData.mk (Some "http://x") None; ImageData.mk None (Some "AAA")];
          OpenAIImageResult.error := None |} = Normal results
     ∧ ImageResult_url <$> results = [Some "http://x"; None]
     ∧ ImageResult_base64 <$> results = [None; Some "data:image/png;base64,AAA"]).
Proof.
  destruct (extractResultData_normalises exampleImports
              {| OpenAIImageResult.data :=
                   [ImageData.mk (Some "http://x") None; ImageData.mk None (Some "AAA")];
                 OpenAIImageResult.error := None |} eq_refl)
    as (results & Hres & _ & _).
  exists results. split; [exact Hres|].
  vm_compute in Hres. injection Hres as <-. split; reflexivity.
Defined.

(** The example of the specification for a service error: the response
    [{error: {message: "bad key"}}] makes the normaliser throw
    ["bad key"]. *)
Lemma extractResultData_bad_key :
  extractResultData exampleImports
    {| OpenAIImageResult.data := [];
       OpenAIImageResult.error :=
         Some {| ServiceError.code := None; ServiceError.message := "bad key" |} |}
  = Throw (ThrownValue "bad key").
Proof.
  apply (extractResultData_throws_service_message exampleImports).
  eexists. split; reflexivity.
Defined.

(** ** The config normaliser *)

Section ConfigNormaliser.

Variable I : Imports.

(** The files policy that the field initializer of [images] sets up. *)
Lemma default_files_policy (raw : nat) :
  files (images (fieldInitializers I raw))
  = Some {| acceptedFormats := Some ".png"; maxNumberOfFiles := Some 2;
            infoModal := Some {| textMarkDown := Absent; openModalOnce := Value true |} |}.
Proof. reflexivity. Qed.

(** C8, as the code has it. Applied to the built-in defaults, the config
    normaliser replaces the accepted formats by a provided non-empty string
    and the maximum number of files by a provided number other than zero;
    a field that is absent, the empty string or zero keeps the built-in
    default ([.png], 2 files). Each of the two fields is decided on its
    own. *)
Theorem processImagesConfig_overrides_provided (policy : FileAttachments) (raw : nat) :
  ∃ resolved,
    files (processImagesConfig I policy (images (fieldInitializers I raw))) = Some resolved
    ∧ (∀ formats, acceptedFormats policy = Some formats → formats ≠ "" →
         acceptedFormats resolved = Some formats)
    ∧ (acceptedFormats policy = None ∨ acceptedFormats policy = Some "" →
         acceptedFormats resolved = Some ".png")
    ∧ (∀ count, maxNumberOfFiles policy = Some count → count ≠ 0 →
         maxNumberOfFiles resolved = Some count)
    ∧ (maxNumberOfFiles policy = None ∨ maxNumberOfFiles policy = Some 0 →
         maxNumberOfFiles resolved = Some 2).
Proof.
  unfold processImagesConfig. rewrite default_files_policy. cbn [infoModal].
  eexists. split; [reflexivity|].
  split; [|split; [|split]].
  - intros formats Hf Hne. rewrite Hf. cbn [truthy_string].
    apply String.eqb_neq in Hne. rewrite Hne. cbn [negb].
    by destruct (truthy_number (maxNumberOfFiles policy)).
  - intros [Hf|Hf]; rewrite Hf; cbn;
      by destruct (truthy_number (maxNumberOfFiles policy)).
  - intros count Hc Hne. rewrite Hc. cbn [truthy_number].
    apply Z.eqb_neq in Hne. rewrite Hne. cbn [negb]. done.
  - intros [Hc|Hc]; rewrite Hc; cbn;
      by destruct (truthy_string (acceptedFormats policy)).
Qed.

End ConfigNormaliser.

(** C8, where the claim fails: the caller provides a maximum of 0 files
    and an empty accepted-formats string, and both defaults stay. *)
Lemma processImagesConfig_keeps_default_on_zero :
  maxNumberOfFiles {| acceptedFormats := Some ""; maxNumberOfFiles := Some 0; infoModal := None |}
  = Some 0
  ∧ (files (processImagesConfig exampleImports
              {| acceptedFormats := Some ""; maxNumberOfFiles := Some 0; infoModal := None |}
              (images (fieldInitializers exampleImports 0%nat)))
       ≫= maxNumberOfFiles) = Some 2
  ∧ (files (processImagesConfig exampleImports
              {| acceptedFormats := Some ""; maxNumberOfFiles := Some 0; infoModal := None |}
              (images (fieldInitializers exampleImports 0%nat)))
       ≫= acceptedFormats) = Some ".png".
Proof. repeat split. Qed.

(** C8 on a policy that provides the maximum number of files only. *)
Lemma processImagesConfig_overrides_example :
  ∃ resolved,
    files (processImagesConfig exampleImports
             {| acceptedFormats := None; maxNumberOfFiles := Some 5; infoModal := None |}
             (images (fieldInitializers exampleImports 0%nat))) = Some resolved
    ∧ acceptedFormats resolved = Some ".png"
    ∧ maxNumberOfFiles resolved = Some 5.
Proof.
  destruct (processImagesConfig_overrides_provided exampleImports
              {| acceptedFormats := None; maxNumberOfFiles := Some 5; infoModal := None |} 0%nat)
    as (resolved & Hres & _ & Hfmt & Hmax & _).
  exists resolved. split; [exact Hres|]. split.
  - apply Hfmt. by left.
  - apply Hmax; [reflexivity | lia].
Defined.

(** ** Running a send call *)

Lemma update_last (a : t) (h : list JsObject) (l : list Event) (x : JsObject) f :
  update (List.length h) f {| this := a; heap := (h ++ [x])%list; log := l |}
  = (Normal tt, {| this := a; heap := (h ++ [f x])%list; log := l |}).
Proof.
  unfold update. cbn [heap this log].
  rewrite (list_lookup_middle h [] x (List.length h) eq_refl).
  f_equal. f_equal.
  rewrite insert_app_r_alt by lia. rewrite Nat.sub_diag. done.
Qed.

Lemma preprocessBody_run (s : State) (body : nat) (msgs : list MessageContent) o m :
  heap s !! body = Some o → last msgs = Some m →
  preprocessBody body msgs s
  = (Normal (List.length (heap s)),
     {| this := this s;
        heap := (heap s ++ [promptedCopy (_maxCharLength (this s)) (content m) o])%list;
        log := log s |}).
Proof.
  intros Hb Hm. unfold preprocessBody, bind, read, alloc, lastContent, promptedCopy.
  rewrite Hb. cbn [heap this log]. rewrite Hm. unfold ret at 1.
  destruct (negb (JsString.trim (content m) =? "")%string); [|done].
  unfold ret at 1, getThis. cbn [this].
  rewrite update_last. done.
Qed.

Lemma createFormDataBody_run (s : State) (body : nat) (image : File) rest o :
  heap s !! body = Some o →
  createFormDataBody body (Some image) rest s = (Normal (formOf image rest o), s).
Proof.
  intros Hb. unfold createFormDataBody, bind, read. rewrite Hb.
  unfold ret, formOf, formEntries. destruct rest; done.
Qed.

Lemma callApi_run (s : State) (msgs : Messages) (attached : option (list File)) hs m template :
  RequestSettings.headers (requestSettings (this s)) = Some hs →
  last (messages msgs) = Some m →
  heap s !! _raw_body (this s) = Some template →
  callApi msgs attached s
  = (Normal tt,
     {| this := with_url (string_or (RequestSettings.url (requestSettings (this s)))
                            (endpoint (classify (content m) (default [] attached))))
                  (this s);
        heap := (heap s ++ copiesOf (classify (content m) (default [] attached))
                             (_maxCharLength (this s)) (content m) template)%list;
        log := (log s ++ [Requested (dispatchOf (this s) (content m) (default [] attached)
                                       template)])%list |}).
Proof.
  intros Hh Hm Ht. unfold callApi, bind at 1, getThis. rewrite Hh.
  destruct attached as [[|image [|mask rest]]|]; cbn [default classify].
  - (* generation *)
    unfold bind, setThis. cbn [this heap log].
    rewrite (preprocessBody_run _ _ _ template m) by done.
    cbn [this heap log with_url _maxCharLength _raw_body].
    unfold HTTPRequest_request, bind, read. cbn [heap this log].
    rewrite (list_lookup_middle (heap s) [] _ _ eq_refl).
    unfold ret, getThis, emit. cbn. done.
  - (* one file *)
    unfold callApiWithImage, bind at 1. cbn [lookup list_lookup].
    unfold bind at 1, lastContent. rewrite Hm. unfold ret at 1 2.
    destruct (String.eqb (JsString.trim (content m)) "") eqn:Hblank; cbn [negb];
      unfold dispatchOf, sentBody, classify; rewrite Hblank; cbn [copiesOf endpoint isGeneration negb].
    + unfold bind, setThis, getThis. cbn [this heap log _raw_body with_url].
      rewrite (createFormDataBody_run _ _ _ None template) by done.
      unfold RequestHeaderUtils_temporarilyRemoveContentType, HTTPRequest_request, bind, ret,
        getThis, emit.
      rewrite app_nil_r. cbn. done.
    + unfold bind, setThis, getThis. cbn [this heap log _raw_body with_url].
      rewrite (preprocessBody_run _ _ _ template m) by done.
      cbn [this heap log with_url _maxCharLength _raw_body].
      rewrite (createFormDataBody_run _ _ _ None (promptedCopy (_maxCharLength (this s)) (content m) template)).
      2:{ cbn [heap]. apply (list_lookup_middle (heap s) [] _ _ eq_refl). }
      unfold RequestHeaderUtils_temporarilyRemoveContentType, HTTPRequest_request, bind, ret,
        getThis, emit.
      cbn. done.
  - (* two files *)
    unfold callApiWithImage, bind at 1. cbn [lookup list_lookup].
    unfold ret at 1.
    unfold bind, setThis, getThis. cbn [this heap log _raw_body with_url].
    rewrite (preprocessBody_run _ _ _ template m) by done.
    cbn [this heap log with_url _maxCharLength _raw_body].
    rewrite (createFormDataBody_run _ _ _ (Some mask) (promptedCopy (_maxCharLength (this s)) (content m) template)).
    2:{ cbn [heap]. apply (list_lookup_middle (heap s) [] _ _ eq_refl). }
    unfold RequestHeaderUtils_temporarilyRemoveContentType, HTTPRequest_request, bind, ret,
      getThis, emit.
    cbn. done.
  - (* files undefined *)
    unfold bind, setThis. cbn [this heap log].
    rewrite (preprocessBody_run _ _ _ template m) by done.
    cbn [this heap log with_url _maxCharLength _raw_body].
    unfold HTTPRequest_request, bind, read. cbn [heap this log].
    rewrite (list_lookup_middle (heap s) [] _ _ eq_refl).
    unfold ret, getThis, emit. cbn. done.
Qed.

Lemma extends_refl s : extends s s.
Proof. repeat split. exists []. by rewrite app_nil_r. Qed.

Lemma extends_trans s1 s2 s3 : extends s1 s2 → extends s2 s3 → extends s1 s3.
Proof.
  intros (Hr1 & Hq1 & e1 & He1) (Hr2 & Hq2 & e2 & He2).
  repeat split; [congruence | congruence |].
  exists (e1 ++ e2)%list. rewrite He2, He1. by rewrite app_assoc.
Qed.

Lemma preprocessBody_extends (s : State) (body : nat) (msgs : list MessageContent) :
  extends s (preprocessBody body msgs s).2.
Proof.
  destruct (heap s !! body) as [o|] eqn:Hb.
  - destruct (last msgs) as [m|] eqn:Hm.
    + rewrite (preprocessBody_run s body msgs o m) by done. cbn.
      repeat split. eexists. reflexivity.
    + unfold preprocessBody, bind, read, alloc, lastContent. rewrite Hb. cbn [heap this log].
      rewrite Hm. cbn. repeat split. eexists. reflexivity.
  - unfold preprocessBody, bind, read. rewrite Hb. apply extends_refl.
Qed.

Lemma createFormDataBody_state (s : State) body image mask :
  (createFormDataBody body image mask s).2 = s.
Proof.
  unfold createFormDataBody, bind, read. destruct (heap s !! body); done.
Qed.

Lemma HTTPRequest_request_extends (s : State) removed body stringify :
  extends s (HTTPRequest_request removed body stringify s).2.
Proof.
  unfold HTTPRequest_request, bind, read, ret, getThis, emit.
  destruct body as [ref|fd]; [destruct (heap s !! ref)|]; cbn;
    repeat split; exists []; by rewrite app_nil_r.
Qed.

Lemma setThis_url_extends (s : State) f :
  extends s (setThis (fun self => with_url (f self) self) s).2.
Proof. cbn. repeat split. exists []. by rewrite app_nil_r. Qed.

(** Sequencing keeps [extends]. *)
Lemma bind_extends {A B} (m : M A) (k : A → M B) (s : State) :
  extends s (m s).2 → (∀ a s1, extends s1 (k a s1).2) → extends s (bind m k s).2.
Proof.
  intros Hm Hk. unfold bind. destruct (m s) as [[a|e] s1] eqn:E; cbn in *.
  - eapply extends_trans; [exact Hm | apply Hk].
  - exact Hm.
Qed.

Lemma callApiWithImage_extends (s : State) msgs attached :
  extends s (callApiWithImage msgs attached s).2.
Proof.
  unfold callApiWithImage.
  apply bind_extends.
  - destruct (attached !! 1%nat); [apply extends_refl|].
    apply bind_extends; [|intros; apply extends_refl].
    unfold lastContent. destruct (last (messages msgs)); apply extends_refl.
  - intros edit s1. apply bind_extends.
    + destruct edit.
      * apply bind_extends; [apply setThis_url_extends|]. intros _ s2.
        apply bind_extends; [apply extends_refl|]. intros self s3.
        apply bind_extends; [apply preprocessBody_extends|]. intros body s4.
        rewrite createFormDataBody_state. apply extends_refl.
      * apply bind_extends; [apply setThis_url_extends|]. intros _ s2.
        apply bind_extends; [apply extends_refl|]. intros self s3.
        rewrite createFormDataBody_state. apply extends_refl.
    + intros fd s2. apply HTTPRequest_request_extends.
Qed.

Lemma callApi_extends (s : State) msgs attached :
  extends s (callApi msgs attached s).2.
Proof.
  unfold callApi. apply bind_extends; [apply extends_refl|]. intros self s1.
  destruct (RequestSettings.headers (requestSettings self)); [|apply extends_refl].
  assert (Hgen : extends s1
            ((setThis (fun self0 => with_url (string_or (RequestSettings.url (requestSettings self0))
                                     IMAGE_GENERATION_URL) self0) ;;;
              self0 <- getThis ;;
              body <- preprocessBody (_raw_body self0) (messages msgs) ;;
              HTTPRequest_request false (BodyObject body) true) s1).2).
  { apply bind_extends; [apply setThis_url_extends|]. intros _ s2.
    apply bind_extends; [apply extends_refl|]. intros self0 s3.
    apply bind_extends; [apply preprocessBody_extends|]. intros body s4.
    apply HTTPRequest_request_extends. }
  destruct attached as [[|image rest]|]; [exact Hgen | apply callApiWithImage_extends | exact Hgen].
Qed.

(** ** The raw body template *)

(** C7. A send call of any kind (generation, edit or variation), whether
    it completes or throws, leaves the reference [_raw_body] of the
    adapter and the object behind it as they were before the call: what
    the call writes, it writes to a copy. *)
Theorem callApi_keeps_raw_body
    (s : State) (msgs : Messages) (attached : option (list File)) (template : JsObject) :
  heap s !! _raw_body (this s) = Some template →
  _raw_body (this (callApi msgs attached s).2) = _raw_body (this s)
  ∧ heap (callApi msgs attached s).2 !! _raw_body (this (callApi msgs attached s).2)
    = Some template.
Proof.
  intros Ht. destruct (callApi_extends s msgs attached) as (Hraw & _ & extra & Hheap).
  split; [exact Hraw|].
  rewrite Hraw, Hheap. by apply lookup_app_l_Some.
Qed.

(** C7 on an edit call: the prompt goes to the copy (object 2 of the
    store), the template (object 0) keeps its two parameters. *)
Lemma callApi_keeps_raw_body_example :
  heap keyedState !! _raw_body (this keyedState)
  = Some [("n", JsNumber 2); ("size", JsString "256x256")]
  ∧ (callApi (say "add a hat") (Some [imageFile]) keyedState).1 = Normal tt
  ∧ heap (callApi (say "add a hat") (Some [imageFile]) keyedState).2 !! 2%nat
    = Some [("n", JsNumber 2); ("size", JsString "256x256");
            ("prompt", JsString "add a hat")]
  ∧ _raw_body (this (callApi (say "add a hat") (Some [imageFile]) keyedState).2)
    = _raw_body (this keyedState)
  ∧ heap (callApi (say "add a hat") (Some [imageFile]) keyedState).2
      !! _raw_body (this (callApi (say "add a hat") (Some [imageFile]) keyedState).2)
    = Some [("n", JsNumber 2); ("size", JsString "256x256")].
Proof.
  split; [reflexivity|]. split; [reflexivity|]. split; [reflexivity|].
  apply (callApi_keeps_raw_body keyedState (say "add a hat") (Some [imageFile])).
  reflexivity.
Defined.

(** ** Classification and dispatch *)

Lemma binaryParts_strings (write : string → string) (keys : list string) :
  binaryParts (map (fun key => (key, FormString (write key))) keys) = [].
Proof.
  unfold binaryParts. induction keys as [|k r IH]; [done|]. cbn. exact IH.
Qed.

Lemma binaryParts_formEntries (o : JsObject) : binaryParts (formEntries o) = [].
Proof.
  unfold formEntries.
  apply (binaryParts_strings (fun key => Obj.toString (Obj.get key o))).
Qed.

Lemma binaryParts_formOf (image : File) (mask : option File) (o : JsObject) :
  binaryParts (formOf image mask o)
  = ("image", image) :: match mask with Some m => [("mask", m)] | None => [] end.
Proof.
  unfold formOf, binaryParts. cbn [omap list_omap fst snd].
  f_equal. rewrite omap_app. fold (binaryParts (formEntries o)).
  rewrite binaryParts_formEntries, app_nil_r. by destruct mask.
Qed.

(** The rows of the specification's table, read off [classify]. *)
Lemma classify_table (text : string) (image mask : File) (rest : list File) :
  classify text [] = Generation
  ∧ (JsString.trim text = "" → classify text [image] = Variation)
  ∧ (JsString.trim text ≠ "" → classify text [image] = Edit)
  ∧ classify text (image :: mask :: rest) = Edit.
Proof.
  unfold classify. repeat split.
  - intros ->. done.
  - intros H. apply String.eqb_neq in H. by rewrite H.
Qed.

(** C1, as the code has it. On an adapter whose request settings carry
    headers, a send call with a latest message and any attached files is
    one dispatch, of the operation that the table of the specification
    gives: no file is generation (a JSON body); one file with a blank text
    is variation and one file with text, or two files, is edit (a multipart
    form whose binary parts are [image] and, exactly when a second file is
    attached, [mask]). The dispatch goes to the url of the caller's request
    settings when they carry a non-empty one, and to the endpoint of the
    operation otherwise. On an adapter whose request settings carry no
    headers every send call, with or without files, throws "Request
    settings have not been set up" and leaves the state as it was: no url
    is set and nothing is dispatched. *)
Theorem callApi_classifies_and_dispatches
    (s : State) (msgs : Messages) (attached : option (list File)) :
  (RequestSettings.headers (requestSettings (this s)) = None →
   callApi msgs attached s
   = (Throw (Error "Request settings have not been set up"), s))
  ∧ ∀ (hs : gmap string string) (m : MessageContent) (template : JsObject),
      RequestSettings.headers (requestSettings (this s)) = Some hs →
      last (messages msgs) = Some m →
      heap s !! _raw_body (this s) = Some template →
      ∃ s' d,
        callApi msgs attached s = (Normal tt, s')
        ∧ log s' = (log s ++ [Requested d])%list
        ∧ url (this s') = Dispatch.url d
        ∧ Dispatch.url d
          = string_or (RequestSettings.url (requestSettings (this s)))
              (endpoint (classify (content m) (default [] attached)))
        ∧ (RequestSettings.url (requestSettings (this s)) = None →
           Dispatch.url d = endpoint (classify (content m) (default [] attached)))
        ∧ match classify (content m) (default [] attached) with
          | Generation => ∃ o, Dispatch.body d = JsonBody o
          | _ =>
              ∃ fd, Dispatch.body d = FormDataBody fd
                    ∧ binaryParts fd = requiredParts (default [] attached)
                    ∧ ∀ f, ("mask", f) ∈ binaryParts fd
                           ↔ default [] attached !! 1%nat = Some f
          end.
Proof.
  split.
  { intros Hnone. unfold callApi, bind, getThis. by rewrite Hnone. }
  intros hs m template Hh Hm Ht. eexists _, _.
  split; [exact (callApi_run s msgs attached hs m template Hh Hm Ht)|].
  unfold dispatchOf. cbn [log this url with_url Dispatch.url Dispatch.body].
  split; [done|]. split; [done|]. split; [done|].
  split; [by intros ->|].
  assert (Hmask : ∀ (image : File) (rest : list File) (f : File),
             ("mask", f) ∈ (("image", image)
                            :: match head rest with Some k => [("mask", k)] | None => [] end)
             ↔ (image :: rest) !! 1%nat = Some f).
  { intros image rest f. destruct rest as [|k rest]; cbn.
    - rewrite list_elem_of_singleton. split; [intros [= ? ?]|]; done.
    - rewrite !elem_of_cons, elem_of_nil.
      split; [intros [[=]|[[= ->]|[]]]; done | intros [= ->]; auto]. }
  destruct attached as [[|image [|mask rest]]|];
    unfold sentBody; cbn [default from_option id classify Dispatch.body].
  - eauto.
  - destruct (String.eqb (JsString.trim (content m)) "");
      (eexists; split; [reflexivity|]); rewrite binaryParts_formOf;
      (split; [done|]); intros f; apply (Hmask image [] f).
  - eexists; split; [reflexivity|]. rewrite binaryParts_formOf.
    split; [done|]. intros f. apply (Hmask image (mask :: rest) f).
  - eauto.
Qed.

(** C1, where the claim fails. An adapter made without a key holds no
    headers: its send call throws and nothing is dispatched. An adapter
    whose request settings carry a url of the caller sends an edit (one
    file with text) to that url, not to the edit endpoint. *)
Lemma callApi_not_always_to_endpoint :
  (callApi (say "a red fox") None keylessState).1
  = Throw (Error "Request settings have not been set up")
  ∧ log (callApi (say "a red fox") None keylessState).2 = []
  ∧ classify "add a hat" [imageFile] = Edit
  ∧ endpoint Edit = "https://api.openai.com/v1/images/edits"
  ∧ ∃ d, log (callApi (say "add a hat") (Some [imageFile]) keyedState).2 = [Requested d]
         ∧ Dispatch.url d = "https://proxy.example/images".
Proof.
  split; [reflexivity|]. split; [reflexivity|]. split; [reflexivity|].
  split; [reflexivity|]. eexists. split; reflexivity.
Qed.

(** C1 on an adapter without a key, whose call with a file throws, and on
    an adapter with a key and no url of the caller: two files and a blank
    text are an edit, sent to the edit endpoint with [image] and [mask]. *)
Lemma callApi_classifies_example :
  callApi (say "add a hat") (Some [imageFile]) keylessState
  = (Throw (Error "Request settings have not been set up"), keylessState)
  ∧ ∃ d fd,
      log (callApi (say "   ") (Some [imageFile; maskFile]) plainKeyedState).2 = [Requested d]
      ∧ Dispatch.url d = "https://api.openai.com/v1/images/edits"
      ∧ Dispatch.body d = FormDataBody fd
      ∧ binaryParts fd = [("image", imageFile); ("mask", maskFile)].
Proof.
  split.
  { apply (proj1 (callApi_classifies_and_dispatches keylessState (say "add a hat")
                    (Some [imageFile]))).
    reflexivity. }
  destruct (proj2 (callApi_classifies_and_dispatches plainKeyedState (say "   ")
                     (Some [imageFile; maskFile]))
              {["Authorization" := "Bearer sk-1"]}
              {| role := "user"; content := "   " |} [])
    as (s' & d & Hrun & Hlog & _ & _ & Hurl & fd & Hbody & Hparts & _);
    [reflexivity | reflexivity | reflexivity |].
  exists d, fd. rewrite Hrun. cbn [snd].
  split; [exact Hlog|]. split; [exact (Hurl eq_refl)|]. split; [exact Hbody | exact Hparts].
Defined.

(** ** Fields that a statement keeps *)

Section Keeps.

Context {X : Type} (P : t → X).

Lemma keeps_ret {A} (a : A) : keeps P (ret a).
Proof. done. Qed.

Lemma keeps_throw {A} (e : Exception) : keeps P (throw (A := A) e).
Proof. done. Qed.

Lemma keeps_getThis : keeps P getThis.
Proof. done. Qed.

Lemma keeps_emit (e : Event) : keeps P (emit e).
Proof. done. Qed.

Lemma keeps_alloc (o : JsObject) : keeps P (alloc o).
Proof. done. Qed.

Lemma keeps_read (ref : nat) : keeps P (read ref).
Proof. intros s. unfold read. by destruct (heap s !! ref). Qed.

Lemma keeps_update (ref : nat) (f : JsObject → JsObject) : keeps P (update ref f).
Proof. intros s. unfold update. by destruct (heap s !! ref). Qed.

Lemma keeps_setThis (f : t → t) : (∀ a, P (f a) = P a) → keeps P (setThis f).
Proof. intros Hf s. apply Hf. Qed.

Lemma keeps_bind {A B} (m : M A) (k : A → M B) :
  keeps P m → (∀ a, keeps P (k a)) → keeps P (bind m k).
Proof.
  intros Hm Hk s. unfold bind. specialize (Hm s).
  destruct (m s) as [[a|e] s1]; cbn in *; [|done].
  by rewrite Hk.
Qed.

(** After a first statement, statements that keep the field leave it as
    the first statement set it. *)
Lemma keeps_after {A B} (m : M A) (k : A → M B) (s : State) :
  (∀ a, keeps P (k a)) → P (this (bind m k s).2) = P (this (m s).2).
Proof.
  intros Hk. unfold bind. destruct (m s) as [[a|e] s1]; cbn; [|done]. apply Hk.
Qed.

End Keeps.

Create HintDb keeps.
#[local] Hint Resolve keeps_ret keeps_throw keeps_getThis keeps_emit keeps_alloc keeps_read
  keeps_update : keeps.

Ltac keeps_step :=
  first
    [ apply keeps_bind; [|intros ?]
    | apply keeps_setThis; intros ?; reflexivity
    | solve [auto with keeps]
    | match goal with
      | |- keeps _ (match ?x with _ => _ end) => destruct x
      | |- keeps _ (if ?x then _ else _) => destruct x
      end ].

Lemma cleanConfig_keeps {X} (P : t → X) (config : nat) : keeps P (cleanConfig config).
Proof. unfold cleanConfig. repeat keeps_step. Qed.

Lemma new_maxCharLength I ai key h l :
  _maxCharLength (this (new I ai key h l).2)
  = if truthy_number (inputCharacterLimit ai)
    then default 0 (inputCharacterLimit ai)
    else IMAGES_MAX_CHAR_LENGTH I.
Proof.
  unfold new, constructor. rewrite keeps_after.
  - by destruct (truthy_number (inputCharacterLimit ai)).
  - intros _. repeat first [apply cleanConfig_keeps | keeps_step].
Qed.

Lemma constructor_keeps_requestSettings I ai key :
  truthy_string key = false → keeps requestSettings (constructor I ai key).
Proof.
  intros Hk. unfold constructor. rewrite Hk.
  repeat first [apply cleanConfig_keeps | keeps_step].
Qed.

Lemma update_run (a : t) (h : list JsObject) (l : list Event) ref o f :
  h !! ref = Some o →
  update ref f {| this := a; heap := h; log := l |}
  = (Normal tt, {| this := a; heap := <[ref := f o]> h; log := l |}).
Proof. intros H. unfold update. cbn [heap this log]. by rewrite H. Qed.

Lemma read_run (a : t) (h : list JsObject) (l : list Event) ref o :
  h !! ref = Some o →
  read ref {| this := a; heap := h; log := l |}
  = (Normal o, {| this := a; heap := h; log := l |}).
Proof. intros H. unfold read. cbn [heap this log]. by rewrite H. Qed.

Lemma cleanConfig_run (a : t) (h : list JsObject) (l : list Event) ref o :
  h !! ref = Some o →
  cleanConfig ref {| this := a; heap := h; log := l |}
  = (Normal tt,
     {| this := a; heap := <[ref := Obj.delete "request" (Obj.delete "files" o)]> h; log := l |}).
Proof.
  intros H. unfold cleanConfig, bind. rewrite (update_run _ _ _ _ o) by done.
  assert (Hlt : (ref < List.length h)%nat) by (apply lookup_lt_is_Some; eauto).
  rewrite (update_run _ _ _ _ (Obj.delete "files" o)).
  - by rewrite list_insert_insert_eq.
  - by apply list_lookup_insert_eq.
Qed.

Lemma new_run_object I ai key h l c o :
  openAI ai ≫= completions = Some (ConfigObject c) →
  h !! c = Some o →
  new I ai key h l
  = (Normal tt,
     {| this := resolvedInstance I ai key (Some o) c;
        heap := <[c := Obj.delete "request" (Obj.delete "files" o)]> (h ++ [[]])%list;
        log := l |}).
Proof.
  intros Hc Ho. unfold new, constructor. rewrite Hc.
  assert (Ho' : (h ++ [[]])%list !! c = Some o) by by apply lookup_app_l_Some.
  unfold bind at 1.
  destruct (truthy_number (inputCharacterLimit ai)) eqn:Hn;
    cbn [setThis ret this heap log];
    unfold bind at 1; cbn [setThis this heap log];
    unfold bind at 1; unfold bind at 1; rewrite (read_run _ _ _ _ o) by done;
    unfold ret at 1; unfold bind at 1;
    destruct (truthy_string key) eqn:Hk;
    cbn [setThis ret this heap log];
    unfold bind at 1; unfold bind at 1; rewrite (read_run _ _ _ _ o) by done;
    unfold bind at 1;
    destruct (Obj.files o) as [policy|] eqn:Hf;
    unfold bind, getThis, setThis, ret; cbn [this heap log];
    rewrite (cleanConfig_run _ _ _ _ o) by done;
    cbn [this heap log];
    destruct (validateMessageBeforeSending ai) as [validate|] eqn:Hv;
    unfold resolvedInstance; rewrite ?Hn, ?Hk, ?Hf, ?Hv; reflexivity.
Qed.

Lemma new_run_plain I ai key h l :
  (∀ c, openAI ai ≫= completions ≠ Some (ConfigObject c)) →
  new I ai key h l
  = (Normal tt,
     {| this := resolvedInstance I ai key None (List.length h);
        heap := (h ++ [[]])%list;
        log := l |}).
Proof.
  intros Hc. unfold new, constructor.
  destruct (openAI ai ≫= completions) as [[b|c]|] eqn:Hcfg; [|by destruct (Hc c)|];
    unfold bind, setThis, getThis, ret; cbn [this heap log];
    destruct (truthy_number (inputCharacterLimit ai)) eqn:Hn;
    destruct (truthy_string key) eqn:Hk;
    cbn [this heap log];
    destruct (validateMessageBeforeSending ai) as [validate|] eqn:Hv;
    unfold resolvedInstance; rewrite ?Hn, ?Hk, ?Hv; reflexivity.
Qed.

(** ** The prompt *)

Lemma get_set_eq (k : string) (v : JsValue) (o : JsObject) :
  Obj.get k (Obj.set k v o) = v.
Proof.
  induction o as [|[k' v'] r IH]; cbn.
  - by rewrite String.eqb_refl.
  - destruct (String.eqb k k') eqn:E; cbn; rewrite E; done.
Qed.

Lemma get_absent (k : string) (o : JsObject) :
  k ∉ Obj.keys o → Obj.get k o = JsUndefined.
Proof.
  induction o as [|[k' v'] r IH]; cbn; [done|].
  rewrite not_elem_of_cons. intros [Hne Hr].
  apply String.eqb_neq in Hne. rewrite Hne. by apply IH.
Qed.

Lemma keys_jsonCopy (k : string) (o : JsObject) :
  k ∈ Obj.keys (Obj.jsonCopy o) → k ∈ Obj.keys o.
Proof.
  induction o as [|[k' v'] r IH]; cbn; [done|].
  destruct v'; cbn; rewrite ?elem_of_cons; intuition.
Qed.

(** On an object (no key twice) the JSON copy reads like the object. *)
Lemma get_jsonCopy (k : string) (o : JsObject) :
  NoDup (Obj.keys o) → Obj.get k (Obj.jsonCopy o) = Obj.get k o.
Proof.
  induction o as [|[k' v'] r IH]; cbn; [done|].
  rewrite NoDup_cons. intros [Hk' Hr].
  destruct (String.eqb k k') eqn:E.
  - apply String.eqb_eq in E as ->.
    destruct v'; cbn; rewrite ?String.eqb_refl; try done.
    apply get_absent. intros H. by apply Hk', keys_jsonCopy.
  - destruct v'; cbn; rewrite ?E; by apply IH.
Qed.

Section Prompt.

Variable I : Imports.

(** C2, as the code has it. The maximum length that an adapter holds is
    the default of the adapter unless the caller's [inputCharacterLimit] is
    a number other than zero. For a latest message whose trimmed text is
    not empty, the prompt of the built body is the text of the message as
    it stands (not trimmed) cut to its first characters up to that
    maximum: never longer than the maximum, and the whole text when the
    text fits. For a latest message whose trimmed text is empty no prompt
    is written: the body is the JSON copy of the template, with the prompt
    the template has or without one. *)
Theorem preprocessBody_prompt
    (aiAssistant : AiAssistant) (key : option string) (h : list JsObject) (l : list Event) :
  _maxCharLength (this (new I aiAssistant key h l).2)
  = (if truthy_number (inputCharacterLimit aiAssistant)
     then default 0 (inputCharacterLimit aiAssistant)
     else IMAGES_MAX_CHAR_LENGTH I)
  ∧ ∀ (s : State) (body : nat) (msgs : list MessageContent)
      (m : MessageContent) (template : JsObject),
      heap s !! body = Some template →
      last msgs = Some m →
      ∃ copy s' sent,
        preprocessBody body msgs s = (Normal copy, s')
        ∧ heap s' !! copy = Some sent
        ∧ (JsString.trim (content m) ≠ "" →
           ∃ prompt,
             Obj.get "prompt" sent = JsString prompt
             ∧ prompt = JsString.take (Z.to_nat (_maxCharLength (this s))) (content m)
             ∧ Z.of_nat (String.length prompt) ≤ Z.max 0 (_maxCharLength (this s))
             ∧ (Z.of_nat (String.length (content m)) ≤ _maxCharLength (this s) →
                prompt = content m))
        ∧ (JsString.trim (content m) = "" →
           sent = Obj.jsonCopy template
           ∧ (NoDup (Obj.keys template) →
              Obj.get "prompt" sent = Obj.get "prompt" template)).
Proof.
  split; [apply new_maxCharLength|].
  intros s body msgs m template Hb Hm.
  eexists _, _, _. split; [exact (preprocessBody_run s body msgs template m Hb Hm)|].
  cbn [heap]. split; [apply (list_lookup_middle (heap s) [] _ _ eq_refl)|].
  unfold promptedCopy. split.
  - intros Hne. apply String.eqb_neq in Hne. rewrite Hne. cbn [negb].
    eexists. split; [apply get_set_eq|]. rewrite substring_prefix.
    split; [reflexivity|]. split.
    + rewrite length_take. lia.
    + intros Hfit. apply take_all. lia.
  - intros He. rewrite He. cbn. split; [done|]. apply get_jsonCopy.
Qed.

End Prompt.

(** C2, where the claim fails: the text [" hi "] is neither blank nor
    trimmed, and the prompt is [" hi "] with its spaces, not the trimmed
    text ["hi"]. *)
Lemma preprocessBody_prompt_not_trimmed :
  JsString.trim " hi " = "hi"
  ∧ JsString.substring (JsString.trim " hi ") 0 (_maxCharLength (this keyedState)) = "hi"
  ∧ (preprocessBody 0%nat (messages (say " hi ")) keyedState).1 = Normal 2%nat
  ∧ (Obj.get "prompt"
       <$> heap (preprocessBody 0%nat (messages (say " hi ")) keyedState).2 !! 2%nat)
    = Some (JsString " hi ").
Proof. repeat split. Qed.

(** C2 on a limit of 5 characters: the prompt of ["  hello world"] is
    its first five characters, and a limit of 0 leaves the default. *)
Lemma preprocessBody_prompt_example :
  _maxCharLength
    (this (new exampleImports
             {| openAI := None; requestInterceptor := None;
                inputCharacterLimit := Some 5; validateMessageBeforeSending := None |}
             None [] []).2) = 5
  ∧ _maxCharLength
      (this (new exampleImports
               {| openAI := None; requestInterceptor := None;
                  inputCharacterLimit := Some 0; validateMessageBeforeSending := None |}
               None [] []).2) = 1000
  ∧ ∃ copy s' sent,
      preprocessBody 0%nat (messages (say "  hello world"))
        (new exampleImports
           {| openAI := None; requestInterceptor := None;
              inputCharacterLimit := Some 5; validateMessageBeforeSending := None |}
           None [] []).2 = (Normal copy, s')
      ∧ heap s' !! copy = Some sent
      ∧ Obj.get "prompt" sent = JsString "  hel".
Proof.
  split; [exact (proj1 (preprocessBody_prompt exampleImports
                          {| openAI := None; requestInterceptor := None;
                             inputCharacterLimit := Some 5;
                             validateMessageBeforeSending := None |} None [] []))|].
  split; [reflexivity|].
  destruct (proj2 (preprocessBody_prompt exampleImports plainAssistant None [] [])
              (new exampleImports
                 {| openAI := None; requestInterceptor := None;
                    inputCharacterLimit := Some 5; validateMessageBeforeSending := None |}
                 None [] []).2
              0%nat (messages (say "  hello world"))
              {| role := "user"; content := "  hello world" |} [] eq_refl eq_refl)
    as (copy & s' & sent & Hrun & Hsent & Hprompt & _).
  exists copy, s', sent. split; [exact Hrun|]. split; [exact Hsent|].
  destruct Hprompt as (prompt & Hget & -> & _); [discriminate|]. exact Hget.
Defined.

(** ** Key verification *)

Section KeyVerification.

Variable I : Imports.


Lemma verifyKey_accepted_run (inputElement : HTMLInputElement) (s : State) :
  verifyKey I inputElement Accepted recordingHandlers s
  = (Normal tt,
     {| this := with_requestSettings
                  (OpenAIUtils_buildRequestSettings I (value inputElement)
                     (requestSettings (this s)))
                  (this s);
        heap := heap s;
        log := (log s
                ++ [OnLoad;
                    OnSuccess (value inputElement)
                      (OpenAIUtils_buildRequestSettings I (value inputElement)
                         (requestSettings (this s)))])%list |}).
Proof.
  unfold verifyKey, OpenAIUtils_verifyKey, addKey, recordingHandlers, bind, setThis, getThis,
    emit. cbn. by rewrite <- app_assoc.
Qed.



End KeyVerification.


(** ** Construction *)

Section Construction.

Variable I : Imports.

(** The configuration object of a caller that gives one. *)
Lemma configContent_object (aiAssistant : AiAssistant) (h : list JsObject) (o : JsObject) :
  configContent aiAssistant h = Some (Some (inr o)) →
  ∃ c, openAI aiAssistant ≫= completions = Some (ConfigObject c) ∧ h !! c = Some o.
Proof.
  unfold configContent.
  destruct (openAI aiAssistant ≫= completions) as [[b|c]|]; try discriminate.
  destruct (h !! c) as [o'|] eqn:E; cbn; [|discriminate].
  intros [= ->]. eauto.
Qed.

Lemma configContent_plain (aiAssistant : AiAssistant) (h : list JsObject) cfg :
  configContent aiAssistant h = Some cfg →
  (∀ o, cfg ≠ Some (inr o)) →
  ∀ c, openAI aiAssistant ≫= completions ≠ Some (ConfigObject c).
Proof.
  unfold configContent. intros Hcfg Hplain c Hc. rewrite Hc in Hcfg.
  destruct (h !! c) as [o|]; cbn in Hcfg; [|discriminate].
  injection Hcfg as <-. by apply (Hplain o).
Qed.

(** The construction completes when the configuration object, if the
    caller gives one, is an object of the store. *)
Lemma new_completes (aiAssistant : AiAssistant) (key : option string)
    (h : list JsObject) (l : list Event) cfg :
  configContent aiAssistant h = Some cfg →
  (new I aiAssistant key h l).1 = Normal tt.
Proof.
  intros Hcfg. destruct cfg as [[b|o]|].
  - rewrite new_run_plain; [done|]. by apply (configContent_plain _ h _ Hcfg).
  - destruct (configContent_object _ _ _ Hcfg) as (c & Hc & Ho).
    by rewrite (new_run_object I _ key h l c o).
  - rewrite new_run_plain; [done|]. by apply (configContent_plain _ h _ Hcfg).
Qed.

(** C10. An adapter constructed without a key (no key, or the empty
    string) holds the empty request settings, whatever request settings
    the caller's configuration supplies: the constructor assigns the
    supplied settings on the branch of a key only, where they are merged
    with the key. Without a key they are dropped, and a key that a later
    verification merges is merged into the empty settings. *)
Theorem new_without_key_has_empty_settings
    (aiAssistant : AiAssistant) (h : list JsObject) (l : list Event) :
  requestSettings (this (new I aiAssistant None h l).2) = RequestSettings.empty
  ∧ requestSettings (this (new I aiAssistant (Some "") h l).2) = RequestSettings.empty
  ∧ (∀ cfg, configContent aiAssistant h = Some cfg →
       (new I aiAssistant None h l).1 = Normal tt)
  ∧ (∀ (key : string) (c : nat) (o : JsObject),
       key ≠ "" →
       openAI aiAssistant ≫= completions = Some (ConfigObject c) →
       h !! c = Some o →
       requestSettings (this (new I aiAssistant (Some key) h l).2)
       = OpenAIUtils_buildRequestSettings I key
           (default RequestSettings.empty (Obj.request o)))
  ∧ (∀ inputElement : HTMLInputElement,
       requestSettings
         (this (verifyKey I inputElement Accepted recordingHandlers
                  (new I aiAssistant None h l).2).2)
       = OpenAIUtils_buildRequestSettings I (value inputElement) RequestSettings.empty).
Proof.
  assert (Hnone : requestSettings (this (new I aiAssistant None h l).2)
                  = RequestSettings.empty).
  { unfold new. by rewrite (constructor_keeps_requestSettings I aiAssistant None). }
  split; [exact Hnone|]. split.
  { unfold new. by rewrite (constructor_keeps_requestSettings I aiAssistant (Some "")). }
  split; [intros cfg; apply new_completes|]. split.
  - intros key c o Hkey Hc Ho. rewrite (new_run_object I _ _ h l c o) by done.
    cbn [snd this requestSettings resolvedInstance truthy_string].
    apply String.eqb_neq in Hkey. rewrite Hkey. done.
  - intros inputElement. rewrite verifyKey_accepted_run.
    cbn [snd this requestSettings with_requestSettings]. by rewrite Hnone.
Qed.

End Construction.

(** C10 on a configuration that supplies a url and a header: without a
    key the adapter holds neither. *)
Lemma new_without_key_example :
  Obj.request <$> exampleStore !! 0%nat
  = Some (Some {| RequestSettings.url := Some "https://proxy.example/images";
                  RequestSettings.headers := Some {["X-Team" := "art"]} |})
  ∧ (new exampleImports configuredAssistant None exampleStore []).1 = Normal tt
  ∧ requestSettings (this (new exampleImports configuredAssistant None exampleStore []).2)
    = RequestSettings.empty.
Proof.
  destruct (new_without_key_has_empty_settings exampleImports configuredAssistant
              exampleStore [])
    as (Hnone & _ & Hrun & _).
  split; [reflexivity|]. split; [|exact Hnone].
  apply (Hrun (Some (inr exampleConfig))). reflexivity.
Defined.

(** ** Objects *)

Lemma get_set_ne (k k' : string) (v : JsValue) (o : JsObject) :
  k ≠ k' → Obj.get k (Obj.set k' v o) = Obj.get k o.
Proof.
  intros Hne. apply String.eqb_neq in Hne.
  induction o as [|[k0 v0] r IH]; cbn.
  - by rewrite Hne.
  - destruct (String.eqb k' k0) eqn:E; cbn.
    + apply String.eqb_eq in E as ->. by rewrite Hne.
    + by rewrite IH.
Qed.

Lemma keys_set (k : string) (v : JsValue) (o : JsObject) :
  Obj.keys (Obj.set k v o)
  = if bool_decide (k ∈ Obj.keys o) then Obj.keys o else (Obj.keys o ++ [k])%list.
Proof.
  induction o as [|[k0 v0] r IH]; cbn; [done|].
  destruct (String.eqb k k0) eqn:E; cbn.
  - apply String.eqb_eq in E as ->.
    rewrite bool_decide_eq_true_2; [done | by left].
  - apply String.eqb_neq in E. fold (Obj.keys r) in *. fold (Obj.keys (Obj.set k v r)).
    rewrite IH. destruct (bool_decide (k ∈ Obj.keys r)) eqn:B.
    + apply bool_decide_eq_true in B. rewrite bool_decide_eq_true_2; [done | by right].
    + apply bool_decide_eq_false in B.
      rewrite bool_decide_eq_false_2; [done|]. rewrite elem_of_cons. intuition.
Qed.

Lemma get_delete_eq (k : string) (o : JsObject) :
  Obj.get k (Obj.delete k o) = JsUndefined.
Proof.
  induction o as [|[k0 v0] r IH]; cbn; [done|].
  destruct (String.eqb k k0) eqn:E; cbn; [done|]. by rewrite E.
Qed.

Lemma get_delete_ne (k k' : string) (o : JsObject) :
  k ≠ k' → Obj.get k (Obj.delete k' o) = Obj.get k o.
Proof.
  intros Hne. induction o as [|[k0 v0] r IH]; cbn; [done|].
  destruct (String.eqb k' k0) eqn:E; cbn.
  - apply String.eqb_eq in E as <-. apply String.eqb_neq in Hne. by rewrite Hne.
  - by rewrite IH.
Qed.

Lemma keys_delete (k x : string) (o : JsObject) :
  x ∈ Obj.keys (Obj.delete k o) ↔ x ∈ Obj.keys o ∧ x ≠ k.
Proof.
  induction o as [|[k0 v0] r IH]; cbn.
  - rewrite elem_of_nil. tauto.
  - fold (Obj.keys r). destruct (String.eqb k k0) eqn:E.
    + apply String.eqb_eq in E as <-. rewrite IH, elem_of_cons. intuition.
    + apply String.eqb_neq in E. cbn. fold (Obj.keys (Obj.delete k r)).
      rewrite !elem_of_cons, IH. intuition congruence.
Qed.

Lemma elem_of_jsonCopy (k : string) (v : JsValue) (o : JsObject) :
  (k, v) ∈ Obj.jsonCopy o ↔ (k, v) ∈ o ∧ v ≠ JsUndefined.
Proof.
  induction o as [|[k0 v0] r IH]; cbn.
  - rewrite elem_of_nil. tauto.
  - destruct v0; rewrite ?elem_of_cons, IH; intuition congruence.
Qed.

Lemma keys_set_elem (x k : string) (v : JsValue) (o : JsObject) :
  x ∈ Obj.keys (Obj.set k v o) → x = k ∨ x ∈ Obj.keys o.
Proof.
  rewrite keys_set. destruct (bool_decide (k ∈ Obj.keys o)); [auto|].
  rewrite elem_of_app, list_elem_of_singleton. tauto.
Qed.

(** ** Construction twice *)

Section Determinism.

Variable I : Imports.

(** The content of a constructed adapter is [resolvedContent] of the
    content of its inputs: the place of the configuration object in the
    store and the rest of the store have no part in it. *)
Lemma new_content (aiAssistant : AiAssistant) (key : option string)
    (h : list JsObject) (l : list Event) cfg :
  configContent aiAssistant h = Some cfg →
  serviceContent (new I aiAssistant key h l).2
  = resolvedContent I aiAssistant key (objectOf cfg).
Proof.
  intros Hcfg.
  assert (Hplain : (∀ o, cfg ≠ Some (inr o)) →
            objectOf cfg = None →
            serviceContent (new I aiAssistant key h l).2
            = resolvedContent I aiAssistant key (objectOf cfg)).
  { intros Hne ->. rewrite new_run_plain by by apply (configContent_plain _ h _ Hcfg).
    unfold serviceContent, resolvedContent. cbn [snd this heap log].
    cbn [resolvedInstance images _maxCharLength requestSettings _raw_body canSendMessage_
           requestInterceptor_ fieldInitializers].
    by rewrite (list_lookup_middle h [] _ _ eq_refl). }
  destruct cfg as [[b|o]|]; [by apply Hplain | | by apply Hplain].
  destruct (configContent_object _ _ _ Hcfg) as (c & Hc & Ho).
  rewrite (new_run_object I _ key h l c o) by done.
  unfold serviceContent, resolvedContent. cbn [snd this heap log objectOf].
  cbn [resolvedInstance images _maxCharLength requestSettings _raw_body canSendMessage_
         requestInterceptor_ fieldInitializers].
  rewrite list_lookup_insert_eq; [done|].
  rewrite length_app. apply lookup_lt_Some in Ho. lia.
Qed.

(** C9, as the code has it. Two constructions with the same key whose
    inputs have the same content, each with its own configuration object,
    complete with the same content: the same files policy, rendered
    markup, maximum length, request settings and raw body template, in
    whatever stores they run. A construction that is given a
    configuration object keeps that object itself as its raw body
    template and deletes [files] and [request] from it (every other
    property stays): the object then reads no files policy and no request
    settings, which is all that a later construction handed the same
    object finds. *)
Theorem new_content_of_equal_inputs
    (key : option string) (first second : AiAssistant)
    (h1 h2 : list JsObject) (l1 l2 : list Event) cfg :
  requestInterceptor first = requestInterceptor second →
  inputCharacterLimit first = inputCharacterLimit second →
  validateMessageBeforeSending first = validateMessageBeforeSending second →
  configContent first h1 = Some cfg →
  configContent second h2 = Some cfg →
  (new I first key h1 l1).1 = Normal tt
  ∧ (new I second key h2 l2).1 = Normal tt
  ∧ serviceContent (new I first key h1 l1).2 = serviceContent (new I second key h2 l2).2
  ∧ ∀ (c : nat) (o : JsObject),
      openAI first ≫= completions = Some (ConfigObject c) →
      h1 !! c = Some o →
      _raw_body (this (new I first key h1 l1).2) = c
      ∧ heap (new I first key h1 l1).2 !! c
        = Some (Obj.delete "request" (Obj.delete "files" o))
      ∧ content_raw_body (serviceContent (new I first key h1 l1).2)
        = Some (Obj.delete "request" (Obj.delete "files" o))
      ∧ Obj.files (Obj.delete "request" (Obj.delete "files" o)) = None
      ∧ Obj.request (Obj.delete "request" (Obj.delete "files" o)) = None
      ∧ (∀ k, k ≠ "files" → k ≠ "request" →
           Obj.get k (Obj.delete "request" (Obj.delete "files" o)) = Obj.get k o).
Proof.
  intros Hi Hl Hv H1 H2.
  split; [by apply (new_completes I _ _ _ _ cfg)|].
  split; [by apply (new_completes I _ _ _ _ cfg)|].
  split.
  { rewrite (new_content first key h1 l1 cfg H1), (new_content second key h2 l2 cfg H2).
    unfold resolvedContent, resolvedInstance.
    cbn [images _maxCharLength requestSettings canSendMessage_ requestInterceptor_].
    by rewrite Hi, Hl, Hv. }
  intros c o Hc Ho.
  assert (Hlt : (c < List.length (h1 ++ [[]]))%nat).
  { rewrite length_app. apply lookup_lt_Some in Ho. lia. }
  unfold serviceContent. rewrite (new_run_object I first key h1 l1 c o Hc Ho).
  cbn [snd this heap log _raw_body resolvedInstance content_raw_body].
  split; [done|].
  split; [by apply list_lookup_insert_eq|].
  split; [by apply list_lookup_insert_eq|].
  split; [unfold Obj.files; by rewrite get_delete_ne, get_delete_eq|].
  split; [unfold Obj.request; by rewrite get_delete_eq|].
  intros k Hf Hr. by rewrite !get_delete_ne.
Qed.

End Determinism.

(** C9, where the claim fails: the same construction twice, the second
    handed the configuration object of the first. The first resolves the
    caller's maximum of 5 files, the markup of the modal and the caller's
    url; the second finds the object without its [files] and [request]
    and resolves the default of 2 files, no markup and no url. *)
Lemma new_twice_on_one_object_differs :
  rerunState = (new exampleImports configuredAssistant (Some "sk-1") (heap keyedState) []).2
  ∧ keyedState = (new exampleImports configuredAssistant (Some "sk-1") exampleStore []).2
  ∧ (new exampleImports configuredAssistant (Some "sk-1") (heap keyedState) []).1 = Normal tt
  ∧ (files (images (this keyedState)) ≫= maxNumberOfFiles) = Some 5
  ∧ (files (images (this rerunState)) ≫= maxNumberOfFiles) = Some 2
  ∧ infoModalTextMarkUp (images (this keyedState))
    = Some (render exampleImports MODAL_MARKDOWN)
  ∧ infoModalTextMarkUp (images (this rerunState)) = None
  ∧ RequestSettings.url (requestSettings (this keyedState))
    = Some "https://proxy.example/images"
  ∧ RequestSettings.url (requestSettings (this rerunState)) = None.
Proof. repeat split. Qed.

(** C9 on a second construction that runs in the store the first one left
    and is given a configuration object of its own with the same
    content: both resolve the same content. *)
Lemma new_content_of_equal_inputs_example :
  (new exampleImports secondAssistant (Some "sk-1") secondStore []).1 = Normal tt
  ∧ serviceContent keyedState
    = serviceContent (new exampleImports secondAssistant (Some "sk-1") secondStore []).2
  ∧ content_raw_body (serviceContent keyedState)
    = Some [("n", JsNumber 2); ("size", JsString "256x256")].
Proof.
  destruct (new_content_of_equal_inputs exampleImports (Some "sk-1")
              configuredAssistant secondAssistant exampleStore secondStore [] []
              (Some (inr exampleConfig))
              eq_refl eq_refl eq_refl eq_refl eq_refl)
    as (_ & Hrun & Hsame & _).
  split; [exact Hrun|]. split; [exact Hsame | reflexivity].
Defined.

(* ===================================================================== *)
(** * Further properties of the code *)
(* ===================================================================== *)

(** ** Send calls at the edges *)

(** X1. On an adapter that holds headers, a send call with an empty
    message history throws a [TypeError] (the latest message is
    [undefined]) and dispatches nothing, whatever files are attached. *)
Theorem callApi_empty_history_throws
    (s : State) (attached : option (list File))
    (hs : gmap string string) (template : JsObject) :
  RequestSettings.headers (requestSettings (this s)) = Some hs →
  heap s !! _raw_body (this s) = Some template →
  (callApi {| messages := [] |} attached s).1 = Throw TypeError
  ∧ log (callApi {| messages := [] |} attached s).2 = log s.
Proof.
  intros Hh Ht.
  assert (Hpre : ∀ a l,
            preprocessBody (_raw_body (this s)) []
              {| this := a; heap := heap s; log := l |}
            = (Throw TypeError,
               {| this := a; heap := (heap s ++ [Obj.jsonCopy template])%list; log := l |})).
  { intros a l. unfold preprocessBody, bind, read, alloc, lastContent. cbn [heap this log].
    rewrite Ht. done. }
  assert (Hrun : ∃ s', callApi {| messages := [] |} attached s = (Throw TypeError, s')
                       ∧ log s' = log s).
  { unfold callApi, bind at 1, getThis. rewrite Hh.
    destruct attached as [[|image [|mask rest]]|].
    - unfold bind, setThis, getThis. cbn [this heap log with_url _raw_body messages].
      rewrite Hpre. eauto.
    - unfold callApiWithImage, bind, lastContent. cbn. eauto.
    - unfold callApiWithImage, bind at 1. cbn [lookup list_lookup]. unfold ret at 1.
      unfold bind, setThis, getThis. cbn [this heap log with_url _raw_body messages].
      rewrite Hpre. eauto.
    - unfold bind, setThis, getThis. cbn [this heap log with_url _raw_body messages].
      rewrite Hpre. eauto. }
  destruct Hrun as (s' & -> & Hlog). done.
Qed.

Lemma callApi_empty_history_example :
  (callApi {| messages := [] |} (Some [imageFile; maskFile]) keyedState).1 = Throw TypeError
  ∧ log (callApi {| messages := [] |} (Some [imageFile; maskFile]) keyedState).2 = [].
Proof.
  apply (callApi_empty_history_throws keyedState (Some [imageFile; maskFile])
           {["X-Team" := "art"; "Authorization" := "Bearer sk-1"]}
           [("n", JsNumber 2); ("size", JsString "256x256")]); reflexivity.
Defined.

(** X2. An adapter constructed without a key (no key, or the empty
    string) answers every send call with the error "Request settings have
    not been set up" and is left as it was: no url is set, nothing is
    copied, nothing is dispatched. *)
Theorem callApi_without_key_throws
    (I : Imports) (aiAssistant : AiAssistant) (h : list JsObject) (l : list Event)
    (msgs : Messages) (attached : option (list File)) :
  callApi msgs attached (new I aiAssistant None h l).2
  = (Throw (Error "Request settings have not been set up"), (new I aiAssistant None h l).2)
  ∧ callApi msgs attached (new I aiAssistant (Some "") h l).2
    = (Throw (Error "Request settings have not been set up"),
       (new I aiAssistant (Some "") h l).2).
Proof.
  split; unfold callApi, bind, getThis.
  - unfold new at 1. by rewrite (constructor_keeps_requestSettings I aiAssistant None).
  - unfold new at 1. by rewrite (constructor_keeps_requestSettings I aiAssistant (Some "")).
Qed.

Lemma preprocessBody_keeps {X} (P : t → X) body msgs : keeps P (preprocessBody body msgs).
Proof.
  unfold preprocessBody, lastContent.
  repeat first [ keeps_step ].
Qed.

Lemma createFormDataBody_keeps {X} (P : t → X) body image mask :
  keeps P (createFormDataBody body image mask).
Proof. unfold createFormDataBody. repeat keeps_step. Qed.

Lemma HTTPRequest_request_keeps {X} (P : t → X) removed body stringify :
  keeps P (HTTPRequest_request removed body stringify).
Proof. unfold HTTPRequest_request. repeat keeps_step. Qed.

Lemma callApi_keeps {X} (P : t → X) msgs attached :
  (∀ u a, P (with_url u a) = P a) → keeps P (callApi msgs attached).
Proof.
  intros HP.
  assert (Hurl : ∀ f : t → string, keeps P (setThis (fun self => with_url (f self) self))).
  { intros f. apply keeps_setThis. intros a. apply HP. }
  unfold callApi, callApiWithImage, RequestHeaderUtils_temporarilyRemoveContentType, lastContent.
  repeat first
    [ apply Hurl
    | apply preprocessBody_keeps
    | apply createFormDataBody_keeps
    | apply HTTPRequest_request_keeps
    | keeps_step ].
Qed.

(** X3. Whether it completes or throws, a send call changes no field of
    the adapter other than [url]: files policy and markup, maximum length,
    request settings, template reference, predicate and interceptor are
    what they were. *)
Theorem callApi_changes_url_only (s : State) (msgs : Messages) (attached : option (list File)) :
  images (this (callApi msgs attached s).2) = images (this s)
  ∧ _maxCharLength (this (callApi msgs attached s).2) = _maxCharLength (this s)
  ∧ requestSettings (this (callApi msgs attached s).2) = requestSettings (this s)
  ∧ _raw_body (this (callApi msgs attached s).2) = _raw_body (this s)
  ∧ canSendMessage_ (this (callApi msgs attached s).2) = canSendMessage_ (this s)
  ∧ requestInterceptor_ (this (callApi msgs attached s).2) = requestInterceptor_ (this s).
Proof. repeat split; by apply callApi_keeps. Qed.

(** X4. A send call reads [files[0]] and [files[1]] only: two file lists
    with the same first two files give the same call, whatever follows
    them. *)
Theorem callApi_reads_two_files
    (msgs : Messages) (first second : list File) (s : State) :
  take 2 first = take 2 second →
  callApi msgs (Some first) s = callApi msgs (Some second) s.
Proof.
  intros Hsame.
  destruct first as [|a1 [|b1 r1]], second as [|a2 [|b2 r2]]; try discriminate;
    cbn in Hsame; try injection Hsame as -> ->; try injection Hsame as ->; reflexivity.
Qed.

Lemma callApi_reads_two_files_example :
  callApi (say "add a hat") (Some [imageFile; maskFile; imageFile; maskFile]) keyedState
  = callApi (say "add a hat") (Some [imageFile; maskFile]) keyedState.
Proof. apply callApi_reads_two_files. reflexivity. Defined.

(** ** What a request carries *)

(** X5. A variation (one file, blank text) builds its form from the
    template itself: [image], then every own property of the template in
    its order with the value as [String] writes it. No copy is made, the
    store is unchanged, and no prompt is added. The template is one on
    which the model's key order and number writing are those of
    JavaScript: it has no integer-like key, and its numbers are safe
    integers. *)
Theorem callApi_variation_sends_template
    (s : State) (msgs : Messages) (image : File)
    (hs : gmap string string) (m : MessageContent) (template : JsObject) :
  RequestSettings.headers (requestSettings (this s)) = Some hs →
  last (messages msgs) = Some m →
  JsString.trim (content m) = "" →
  heap s !! _raw_body (this s) = Some template →
  plainKeys template = true →
  safeNumbers template = true →
  ∃ s' d,
    callApi msgs (Some [image]) s = (Normal tt, s')
    ∧ heap s' = heap s
    ∧ log s' = (log s ++ [Requested d])%list
    ∧ Dispatch.body d
      = FormDataBody
          (("image", FormFile image)
           :: map (fun key => (key, FormString (Obj.toString (Obj.get key template))))
                (Obj.keys template)).
Proof.
  intros Hh Hm Hblank Ht _ _. eexists _, _.
  split; [exact (callApi_run s msgs (Some [image]) hs m template Hh Hm Ht)|].
  cbn [heap log default from_option id]. unfold dispatchOf, sentBody, classify.
  rewrite Hblank. cbn [String.eqb copiesOf Dispatch.body].
  rewrite app_nil_r. done.
Qed.

(** X6. The body that [preprocessBody] builds reads, at every property
    other than [prompt], what the template reads there; it has no property
    that the template lacks except [prompt]; and the text of a message
    that is not blank takes the place of a prompt that the template
    has. *)
Theorem preprocessBody_keeps_parameters
    (s : State) (body : nat) (msgs : list MessageContent)
    (m : MessageContent) (template : JsObject) :
  heap s !! body = Some template →
  last msgs = Some m →
  NoDup (Obj.keys template) →
  ∃ copy s' sent,
    preprocessBody body msgs s = (Normal copy, s')
    ∧ heap s' !! copy = Some sent
    ∧ (∀ key, key ≠ "prompt" → Obj.get key sent = Obj.get key template)
    ∧ (∀ key, key ∈ Obj.keys sent → key = "prompt" ∨ key ∈ Obj.keys template)
    ∧ (JsString.trim (content m) ≠ "" →
       ∀ own, Obj.get "prompt" template = JsString own →
         Obj.get "prompt" sent
         = JsString (JsString.substring (content m) 0 (_maxCharLength (this s)))).
Proof.
  intros Hb Hm Hnd. eexists _, _, _.
  split; [exact (preprocessBody_run s body msgs template m Hb Hm)|].
  cbn [heap]. split; [apply (list_lookup_middle (heap s) [] _ _ eq_refl)|].
  unfold promptedCopy.
  destruct (String.eqb (JsString.trim (content m)) "") eqn:E; cbn [negb].
  - split; [intros key _; by apply get_jsonCopy|].
    split; [intros key Hk; right; by apply keys_jsonCopy|].
    intros Hne. apply String.eqb_eq in E. done.
  - split; [intros key Hk; rewrite get_set_ne by done; by apply get_jsonCopy|].
    split.
    + intros key [->|Hk]%keys_set_elem; [by left | right; by apply keys_jsonCopy].
    + intros _ own _. apply get_set_eq.
Qed.

Lemma get_elem (k : string) (v : JsValue) (o : JsObject) :
  NoDup (Obj.keys o) → (k, v) ∈ o → Obj.get k o = v.
Proof.
  induction o as [|[k0 v0] r IH]; cbn.
  - intros _ H. by apply elem_of_nil in H.
  - rewrite NoDup_cons, elem_of_cons. intros [Hk0 Hr] [[= -> ->]|Hin].
    + by rewrite String.eqb_refl.
    + destruct (String.eqb k k0) eqn:E; [|by apply IH].
      apply String.eqb_eq in E as ->. destruct Hk0.
      unfold Obj.keys. apply list_elem_of_fmap. by exists (k0, v).
Qed.

Lemma keys_promptedCopy (name : string) (maxCharLength : Z) (text : string) (o : JsObject) :
  name ∈ Obj.keys (promptedCopy maxCharLength text o) → name = "prompt" ∨ name ∈ Obj.keys o.
Proof.
  unfold promptedCopy. destruct (negb (String.eqb (JsString.trim text) "")).
  - intros [->|H]%keys_set_elem; [by left | right; by apply keys_jsonCopy].
  - intros H. right. by apply keys_jsonCopy.
Qed.

Lemma names_formEntries (o : JsObject) : map fst (formEntries o) = Obj.keys o.
Proof.
  unfold formEntries. rewrite map_map. cbn. apply map_id.
Qed.

Lemma names_formOf (image : File) (mask : option File) (o : JsObject) (name : string) :
  name ∈ map fst (formOf image mask o) → name = "image" ∨ name = "mask" ∨ name ∈ Obj.keys o.
Proof.
  unfold formOf. cbn [map fst]. rewrite map_app, names_formEntries.
  rewrite elem_of_cons, elem_of_app.
  intros [->|[H|H]]; [by left | | by right; right].
  destruct mask; cbn in H.
  - apply list_elem_of_singleton in H as ->. by right; left.
  - by apply elem_of_nil in H.
Qed.

(** X7. The names of a dispatched body (the properties of a JSON body,
    the parts of a form) are [image], [mask], [prompt] or own properties
    of the template: a send call adds nothing else. *)
Theorem callApi_body_names
    (s : State) (msgs : Messages) (attached : option (list File))
    (hs : gmap string string) (m : MessageContent) (template : JsObject) :
  RequestSettings.headers (requestSettings (this s)) = Some hs →
  last (messages msgs) = Some m →
  heap s !! _raw_body (this s) = Some template →
  ∃ s' d,
    callApi msgs attached s = (Normal tt, s')
    ∧ log s' = (log s ++ [Requested d])%list
    ∧ ∀ name, name ∈ bodyNames (Dispatch.body d) →
        name = "image" ∨ name = "mask" ∨ name = "prompt" ∨ name ∈ Obj.keys template.
Proof.
  intros Hh Hm Ht. eexists _, _.
  split; [exact (callApi_run s msgs attached hs m template Hh Hm Ht)|].
  split; [done|]. unfold dispatchOf, sentBody. cbn [Dispatch.body].
  intros name.
  assert (Hform : ∀ image mask o,
            (∀ k, k ∈ Obj.keys o → k = "prompt" ∨ k ∈ Obj.keys template) →
            name ∈ bodyNames (FormDataBody (formOf image mask o)) →
            name = "image" ∨ name = "mask" ∨ name = "prompt" ∨ name ∈ Obj.keys template).
  { intros image mask o Ho [->|[->|Hk]]%names_formOf; [tauto | tauto |].
    destruct (Ho _ Hk); tauto. }
  destruct (default [] attached) as [|image rest].
  - cbn [bodyNames]. intros [->|H]%keys_promptedCopy; tauto.
  - destruct (classify (content m) (image :: rest)).
    + apply Hform. intros k. apply keys_promptedCopy.
    + apply Hform. tauto.
    + apply Hform. intros k. apply keys_promptedCopy.
Qed.

(** X8. A property of the template other than [prompt] whose value is
    [undefined] is sent by a variation as the text "undefined" (the form
    is built from the template), and is not sent at all by a one-file edit
    (the form is built from the JSON copy, which leaves it out). [prompt]
    is the exception: an edit writes its own. *)
Theorem callApi_undefined_parameter
    (s : State) (msgs : Messages) (image : File) (hs : gmap string string)
    (m : MessageContent) (template : JsObject) (key : string) :
  RequestSettings.headers (requestSettings (this s)) = Some hs →
  last (messages msgs) = Some m →
  heap s !! _raw_body (this s) = Some template →
  NoDup (Obj.keys template) →
  (key, JsUndefined) ∈ template →
  key ≠ "prompt" →
  ∃ s' d fd,
    callApi msgs (Some [image]) s = (Normal tt, s')
    ∧ log s' = (log s ++ [Requested d])%list
    ∧ Dispatch.body d = FormDataBody fd
    ∧ (JsString.trim (content m) = "" → (key, FormString "undefined") ∈ fd)
    ∧ (JsString.trim (content m) ≠ "" → ∀ v, (key, FormString v) ∉ fd).
Proof.
  intros Hh Hm Ht Hnd Hin Hkey.
  pose proof (callApi_run s msgs (Some [image]) hs m template Hh Hm Ht) as Hrun.
  cbn [default from_option id] in Hrun. unfold dispatchOf, sentBody, classify in Hrun.
  destruct (String.eqb (JsString.trim (content m)) "") eqn:E.
  - eexists _, _, _. split; [exact Hrun|]. split; [done|]. split; [done|].
    split; [|intros Hne; apply String.eqb_eq in E; done].
    intros _. unfold formOf. cbn [app]. rewrite elem_of_cons. right.
    unfold formEntries. apply list_elem_of_fmap. exists key.
    rewrite (get_elem key JsUndefined template Hnd Hin). split; [done|].
    unfold Obj.keys. apply list_elem_of_fmap. by exists (key, JsUndefined).
  - eexists _, _, _. split; [exact Hrun|]. split; [done|]. split; [done|].
    split; [intros He; apply String.eqb_neq in E; done|].
    intros _ v. unfold formOf. cbn [app head]. rewrite elem_of_cons.
    intros [[=]|Hform].
    assert (Hk : key ∈ Obj.keys (promptedCopy (_maxCharLength (this s)) (content m) template)).
    { rewrite <- names_formEntries. apply list_elem_of_fmap. by exists (key, FormString v). }
    unfold promptedCopy in Hk. rewrite E in Hk. cbn [negb] in Hk.
    apply keys_set_elem in Hk as [->|Hk]; [done|].
    unfold Obj.keys in Hk. apply list_elem_of_fmap in Hk as ([k v'] & -> & Hkv).
    apply elem_of_jsonCopy in Hkv as [Hkv Hdef]. cbn [fst] in *.
    apply Hdef. rewrite <- (get_elem k v' template Hnd Hkv). by apply get_elem.
Qed.

(** X9. [callApi] does not ask [canSendMessage] again: a call that the
    default predicate refuses (no file, blank text) is dispatched all the
    same, as a generation whose body is the JSON copy of the template,
    with no prompt written. *)
Theorem callApi_does_not_revalidate
    (s : State) (msgs : Messages) (attached : option (list File))
    (hs : gmap string string) (m : MessageContent) (template : JsObject) :
  RequestSettings.headers (requestSettings (this s)) = Some hs →
  last (messages msgs) = Some m →
  heap s !! _raw_body (this s) = Some template →
  canSendMessage (content m) attached = false →
  ∃ s' d,
    callApi msgs attached s = (Normal tt, s')
    ∧ log s' = (log s ++ [Requested d])%list
    ∧ Dispatch.url d
      = string_or (RequestSettings.url (requestSettings (this s))) IMAGE_GENERATION_URL
    ∧ Dispatch.body d = JsonBody (Obj.jsonCopy template).
Proof.
  intros Hh Hm Ht Hcan. eexists _, _.
  split; [exact (callApi_run s msgs attached hs m template Hh Hm Ht)|].
  split; [done|]. unfold canSendMessage in Hcan.
  apply orb_false_iff in Hcan as [Hfiles Htext]. apply negb_false_iff in Htext.
  assert (Hnone : default [] attached = []).
  { destruct attached as [[|f r]|]; try done. }
  rewrite Hnone. unfold dispatchOf, sentBody, promptedCopy.
  cbn [classify endpoint Dispatch.url Dispatch.body]. by rewrite Htext.
Qed.

(** X10. A send call leaves nothing behind that a later one reads: after
    any completed send call, a second call completes with the same
    dispatch (url, settings, body) that it has when it is made alone. *)
Theorem callApi_independent_of_earlier_call
    (s : State) (earlier later : Messages) (attached1 attached2 : option (list File))
    (hs : gmap string string) (m1 m2 : MessageContent) (template : JsObject) :
  RequestSettings.headers (requestSettings (this s)) = Some hs →
  last (messages earlier) = Some m1 →
  last (messages later) = Some m2 →
  heap s !! _raw_body (this s) = Some template →
  ∃ s1 s2 alone d,
    callApi earlier attached1 s = (Normal tt, s1)
    ∧ callApi later attached2 s1 = (Normal tt, s2)
    ∧ callApi later attached2 s = (Normal tt, alone)
    ∧ log alone = (log s ++ [Requested d])%list
    ∧ log s2 = (log s1 ++ [Requested d])%list.
Proof.
  intros Hh Hm1 Hm2 Ht.
  pose proof (callApi_run s earlier attached1 hs m1 template Hh Hm1 Ht) as H1.
  pose proof (callApi_run s later attached2 hs m2 template Hh Hm2 Ht) as Halone.
  eexists _, _, _, _. split; [exact H1|].
  split; [|split; [exact Halone | split; [reflexivity|]]].
  - apply (callApi_run _ later attached2 hs m2 template).
    + exact Hh.
    + exact Hm2.
    + cbn [heap this _raw_body with_url]. by apply lookup_app_l_Some.
  - reflexivity.
Qed.

(** ** The files policy once more *)

(** X11. Processing a files policy twice is processing it once, on any
    held [images]. *)
Theorem processImagesConfig_idempotent
    (I : Imports) (policy : FileAttachments) (held : Images) :
  processImagesConfig I policy (processImagesConfig I policy held)
  = processImagesConfig I policy held.
Proof.
  destruct held as [[[formats count [[markdown once]|]]|] markup],
           policy as [newFormats newCount [[newMarkdown newOnce]|]];
    unfold processImagesConfig; cbn -[truthy_string truthy_number string_or];
    destruct (truthy_string newFormats) eqn:Ef, (truthy_number newCount) eqn:Ec;
    cbn -[truthy_string truthy_number string_or]; rewrite ?Ef, ?Ec;
    try reflexivity;
    destruct newMarkdown, newOnce; reflexivity.
Qed.

(** X12. On the built-in defaults the info modal of a files policy is
    merged by [Object.assign], with no test of truthiness: an
    [openModalOnce] that the policy's modal has replaces the default
    [true], also when it is [false] or [undefined], and only a modal
    without that property (or no modal) keeps [true]; the [textMarkDown]
    is the one the policy's modal has, also when it is empty. The markup
    is rendered from the provided markdown when that is a non-empty text,
    and from the built-in text otherwise. *)
Theorem processImagesConfig_info_modal
    (I : Imports) (policy : FileAttachments) (raw : nat) :
  ∃ resolved modal,
    files (processImagesConfig I policy (images (fieldInitializers I raw))) = Some resolved
    ∧ infoModal resolved = Some modal
    ∧ (∀ given, infoModal policy = Some given → openModalOnce given ≠ Absent →
         openModalOnce modal = openModalOnce given)
    ∧ (infoModal policy = None
       ∨ (∃ given, infoModal policy = Some given ∧ openModalOnce given = Absent) →
         openModalOnce modal = Value true)
    ∧ (∀ given, infoModal policy = Some given → textMarkDown modal = textMarkDown given)
    ∧ (infoModal policy = None → textMarkDown modal = Absent)
    ∧ (∀ given markdown,
         infoModal policy = Some given → textMarkDown given = Value markdown →
         markdown ≠ "" →
         infoModalTextMarkUp (processImagesConfig I policy (images (fieldInitializers I raw)))
         = Some (render I markdown))
    ∧ (infoModal policy = None
       ∨ (∃ given, infoModal policy = Some given
                   ∧ (textMarkDown given = Absent ∨ textMarkDown given = Undefined
                      ∨ textMarkDown given = Value "")) →
         infoModalTextMarkUp (processImagesConfig I policy (images (fieldInitializers I raw)))
         = Some (render I MODAL_MARKDOWN)).
Proof.
  exists {| acceptedFormats :=
              if truthy_string (acceptedFormats policy)
              then acceptedFormats policy else Some ".png";
            maxNumberOfFiles :=
              if truthy_number (maxNumberOfFiles policy)
              then maxNumberOfFiles policy else Some 2;
            infoModal :=
              Some (InfoModal_assign {| textMarkDown := Absent; openModalOnce := Value true |}
                      (infoModal policy)) |}.
  exists (InfoModal_assign {| textMarkDown := Absent; openModalOnce := Value true |}
            (infoModal policy)).
  assert (Hmarkup :
            infoModalTextMarkUp
              (processImagesConfig I policy (images (fieldInitializers I raw)))
            = Some (render I (string_or
                                (infoModal policy ≫= fun given => valueOf (textMarkDown given))
                                MODAL_MARKDOWN))).
  { unfold processImagesConfig. rewrite default_files_policy. cbn [infoModal].
    by destruct (truthy_string (acceptedFormats policy)),
                (truthy_number (maxNumberOfFiles policy)). }
  rewrite Hmarkup.
  split.
  { unfold processImagesConfig. rewrite default_files_policy. cbn [infoModal].
    by destruct (truthy_string (acceptedFormats policy)),
                (truthy_number (maxNumberOfFiles policy)). }
  split; [reflexivity|].
  destruct (infoModal policy) as [[markdown once]|];
    cbn [InfoModal_assign textMarkDown openModalOnce mbind option_bind valueOf].
  - split.
    { intros given [= <-] Hpresent. cbn in *. by destruct once. }
    split.
    { intros [[=]|(given & [= <-] & Honce)]. cbn in Honce. by rewrite Honce. }
    split.
    { intros given [= <-]. cbn. by destruct markdown. }
    split; [intros [=]|].
    split.
    { intros given text [= <-] Htext Hne. cbn in Htext. rewrite Htext.
      apply String.eqb_neq in Hne. cbn. by rewrite Hne. }
    intros [[=]|(given & [= <-] & Hm)]. cbn in Hm.
    destruct Hm as [Hm | [Hm | Hm]]; rewrite Hm; reflexivity.
  - split; [intros given [=]|].
    split; [intros _; reflexivity|].
    split; [intros given [=]|].
    split; [intros _; reflexivity|].
    split; [intros given text [=]|].
    intros _. reflexivity.
Qed.

(** ** Construction and the store *)

(** X13. Given a configuration object, the constructor completes and
    takes that object itself as the raw body template, after deleting
    [files] and [request] from it: every other property reads as before,
    no other object of the store is changed, one object (the initial
    [{}]) is added, and nothing is dispatched. *)
Theorem new_takes_config_object_as_template
    (I : Imports) (aiAssistant : AiAssistant) (key : option string)
    (h : list JsObject) (l : list Event) (c : nat) (o : JsObject) :
  openAI aiAssistant ≫= completions = Some (ConfigObject c) →
  h !! c = Some o →
  ∃ template,
    (new I aiAssistant key h l).1 = Normal tt
    ∧ _raw_body (this (new I aiAssistant key h l).2) = c
    ∧ heap (new I aiAssistant key h l).2 !! c = Some template
    ∧ Obj.get "files" template = JsUndefined
    ∧ Obj.get "request" template = JsUndefined
    ∧ ("files" ∉ Obj.keys template)
    ∧ ("request" ∉ Obj.keys template)
    ∧ (∀ k, k ≠ "files" → k ≠ "request" → Obj.get k template = Obj.get k o)
    ∧ (∀ ref, ref ≠ c → (ref < List.length h)%nat →
         heap (new I aiAssistant key h l).2 !! ref = h !! ref)
    ∧ List.length (heap (new I aiAssistant key h l).2) = S (List.length h)
    ∧ log (new I aiAssistant key h l).2 = l.
Proof.
  intros Hc Ho. rewrite (new_run_object I aiAssistant key h l c o Hc Ho).
  cbn [fst snd this heap log _raw_body resolvedInstance].
  assert (Hlt : (c < List.length (h ++ [[]]))%nat).
  { rewrite length_app. apply lookup_lt_Some in Ho. lia. }
  eexists. split; [done|]. split; [done|].
  split; [by apply list_lookup_insert_eq|].
  split; [rewrite get_delete_ne by done; apply get_delete_eq|].
  split; [apply get_delete_eq|].
  split; [rewrite !keys_delete; tauto|].
  split; [rewrite keys_delete; tauto|].
  split; [intros k Hf Hr; by rewrite !get_delete_ne|].
  split; [|split; [|done]].
  - intros ref Hne Href. rewrite list_lookup_insert_ne by done. by apply lookup_app_l.
  - rewrite length_insert, length_app. cbn. lia.
Qed.

(** X14. After a construction the predicate of the adapter is the
    caller's [validateMessageBeforeSending] when one is given, and the
    adapter's own [canSendMessage] otherwise; the interceptor is the
    caller's when one is given, and the identity otherwise. *)
Theorem new_takes_caller_predicate
    (I : Imports) (aiAssistant : AiAssistant) (key : option string)
    (h : list JsObject) (l : list Event) cfg :
  configContent aiAssistant h = Some cfg →
  (∀ validate, validateMessageBeforeSending aiAssistant = Some validate →
     canSendMessage_ (this (new I aiAssistant key h l).2) = validate)
  ∧ (validateMessageBeforeSending aiAssistant = None →
     canSendMessage_ (this (new I aiAssistant key h l).2) = canSendMessage)
  ∧ (∀ interceptor, requestInterceptor aiAssistant = Some interceptor →
     requestInterceptor_ (this (new I aiAssistant key h l).2) = interceptor)
  ∧ (requestInterceptor aiAssistant = None →
     ∀ details, requestInterceptor_ (this (new I aiAssistant key h l).2) details = details).
Proof.
  intros Hcfg.
  assert (Hcan : canSendMessage_ (this (new I aiAssistant key h l).2)
                 = default canSendMessage (validateMessageBeforeSending aiAssistant)).
  { change (content_canSendMessage (serviceContent (new I aiAssistant key h l).2)
            = default canSendMessage (validateMessageBeforeSending aiAssistant)).
    by rewrite (new_content I aiAssistant key h l cfg Hcfg). }
  assert (Hint : requestInterceptor_ (this (new I aiAssistant key h l).2)
                 = default (fun details => details) (requestInterceptor aiAssistant)).
  { change (content_requestInterceptor (serviceContent (new I aiAssistant key h l).2)
            = default (fun details => details) (requestInterceptor aiAssistant)).
    by rewrite (new_content I aiAssistant key h l cfg Hcfg). }
  rewrite Hcan, Hint.
  split; [by intros validate ->|]. split; [by intros ->|].
  split; [by intros interceptor ->|]. by intros ->.
Qed.

(** X15. A negative [inputCharacterLimit] is taken as the maximum (it is
    truthy), and under it the prompt of every message that is not blank is
    the empty string: the prompt is written, and holds nothing. *)
Theorem preprocessBody_negative_limit
    (I : Imports) (aiAssistant : AiAssistant) (key : option string)
    (h : list JsObject) (l : list Event) (limit : Z)
    (body : nat) (msgs : list MessageContent) (m : MessageContent) (template : JsObject) :
  inputCharacterLimit aiAssistant = Some limit →
  limit < 0 →
  heap (new I aiAssistant key h l).2 !! body = Some template →
  last msgs = Some m →
  JsString.trim (content m) ≠ "" →
  ∃ copy s' sent,
    preprocessBody body msgs (new I aiAssistant key h l).2 = (Normal copy, s')
    ∧ heap s' !! copy = Some sent
    ∧ Obj.get "prompt" sent = JsString "".
Proof.
  intros Hlimit Hneg Hb Hm Hne. eexists _, _, _.
  split; [exact (preprocessBody_run _ body msgs template m Hb Hm)|].
  cbn [heap]. split; [apply (list_lookup_middle _ [] _ _ eq_refl)|].
  unfold promptedCopy. apply String.eqb_neq in Hne. rewrite Hne. cbn [negb].
  rewrite get_set_eq, substring_prefix, new_maxCharLength, Hlimit.
  cbn [truthy_number default from_option id].
  replace (limit =? 0) with false by (symmetry; apply Z.eqb_neq; lia).
  cbn [negb]. replace (Z.to_nat limit) with 0%nat by lia.
  by destruct (content m).
Qed.

(** ** Results *)

(** X16. Every result that the normaliser returns has a non-empty [url]
    and no [base64], or no [url] and a [base64] that starts with the
    data-URI prefix. *)
Theorem extractResultData_results_are_url_or_base64
    (I : Imports) (result : OpenAIImageResult.t) (results : list ImageResult) :
  extractResultData I result = Normal results →
  ∀ r, r ∈ results →
    (∃ hosted, hosted ≠ "" ∧ ImageResult_url r = Some hosted ∧ ImageResult_base64 r = None)
    ∨ (∃ payload, ImageResult_url r = None
                  ∧ ImageResult_base64 r = Some (BASE_64_PREFIX I ++ payload)).
Proof.
  unfold extractResultData.
  destruct (OpenAIImageResult.error result); [discriminate|].
  intros [= <-] r Hr. apply list_elem_of_fmap in Hr as (entry & -> & _).
  destruct (truthy_string (ImageData.url entry)) eqn:E.
  - left. unfold truthy_string in E.
    destruct (ImageData.url entry) as [hosted|] eqn:Hu; [|discriminate].
    exists hosted. apply negb_true_iff, String.eqb_neq in E. cbn. by rewrite Hu.
  - right. eexists. split; reflexivity.
Qed.

(** ** The further properties on examples *)

(** X5 on the instance of [exampleStore]: the variation form is [image]
    and the two parameters of the template. *)
Lemma callApi_variation_example :
  ∃ s' d,
    callApi (say "  ") (Some [imageFile]) keyedState = (Normal tt, s')
    ∧ heap s' = heap keyedState
    ∧ log s' = [Requested d]
    ∧ Dispatch.body d
      = FormDataBody [("image", FormFile imageFile); ("n", FormString "2");
                      ("size", FormString "256x256")].
Proof.
  exact (callApi_variation_sends_template keyedState (say "  ") imageFile
           {["X-Team" := "art"; "Authorization" := "Bearer sk-1"]}
           {| role := "user"; content := "  " |}
           [("n", JsNumber 2); ("size", JsString "256x256")]
           eq_refl eq_refl eq_refl eq_refl eq_refl eq_refl).
Defined.

(** X6 on the same instance: the body of ["a fox"] keeps [n] and
    [size]. *)
Lemma preprocessBody_keeps_parameters_example :
  ∃ copy s' sent,
    preprocessBody 0%nat (messages (say "a fox")) keyedState = (Normal copy, s')
    ∧ heap s' !! copy = Some sent
    ∧ Obj.get "n" sent = JsNumber 2
    ∧ Obj.get "size" sent = JsString "256x256".
Proof.
  destruct (preprocessBody_keeps_parameters keyedState 0%nat (messages (say "a fox"))
              {| role := "user"; content := "a fox" |}
              [("n", JsNumber 2); ("size", JsString "256x256")]
              eq_refl eq_refl ltac:(compute_done))
    as (copy & s' & sent & Hrun & Hsent & Hkeep & _).
  exists copy, s', sent. split; [exact Hrun|]. split; [exact Hsent|].
  split; [apply (Hkeep "n") | apply (Hkeep "size")]; discriminate.
Defined.

(** X7 on an edit of the same instance. *)
Lemma callApi_body_names_example :
  ∃ s' d,
    callApi (say "add a hat") (Some [imageFile; maskFile]) keyedState = (Normal tt, s')
    ∧ log s' = [Requested d]
    ∧ ∀ name, name ∈ bodyNames (Dispatch.body d) →
        name = "image" ∨ name = "mask" ∨ name = "prompt" ∨ name ∈ ["n"; "size"].
Proof.
  exact (callApi_body_names keyedState (say "add a hat") (Some [imageFile; maskFile])
           {["X-Team" := "art"; "Authorization" := "Bearer sk-1"]}
           {| role := "user"; content := "add a hat" |}
           [("n", JsNumber 2); ("size", JsString "256x256")]
           eq_refl eq_refl eq_refl).
Defined.

(** X8 on a template whose [user] is [undefined]: the variation sends
    [user] as "undefined". *)
Lemma callApi_undefined_parameter_example :
  heap sparseState !! _raw_body (this sparseState) = Some sparseConfig
  ∧ ∃ s' d fd,
      callApi (say "  ") (Some [imageFile]) sparseState = (Normal tt, s')
      ∧ log s' = [Requested d]
      ∧ Dispatch.body d = FormDataBody fd
      ∧ ("user", FormString "undefined") ∈ fd.
Proof.
  split; [reflexivity|].
  destruct (callApi_undefined_parameter sparseState (say "  ") imageFile
              {["Authorization" := "Bearer sk-1"]}
              {| role := "user"; content := "  " |} sparseConfig "user"
              eq_refl eq_refl eq_refl ltac:(compute_done)
              ltac:(apply elem_of_cons; right; apply elem_of_cons; by left)
              ltac:(discriminate))
    as (s' & d & fd & Hrun & Hlog & Hbody & Hvariation & _).
  exists s', d, fd. split; [exact Hrun|]. split; [exact Hlog|]. split; [exact Hbody|].
  apply Hvariation. reflexivity.
Defined.

(** X9 on the instance of [exampleStore]: a blank text without a file is
    sent as a generation, to the url of the caller, with the parameters of
    the template only. *)
Lemma callApi_does_not_revalidate_example :
  ∃ s' d,
    callApi (say "  ") None keyedState = (Normal tt, s')
    ∧ log s' = [Requested d]
    ∧ Dispatch.url d = "https://proxy.example/images"
    ∧ Dispatch.body d = JsonBody [("n", JsNumber 2); ("size", JsString "256x256")].
Proof.
  exact (callApi_does_not_revalidate keyedState (say "  ") None
           {["X-Team" := "art"; "Authorization" := "Bearer sk-1"]}
           {| role := "user"; content := "  " |}
           [("n", JsNumber 2); ("size", JsString "256x256")]
           eq_refl eq_refl eq_refl eq_refl).
Defined.

(** X10 on a generation followed by an edit. *)
Lemma callApi_independent_example :
  ∃ s1 s2 alone d,
    callApi (say "a fox") None keyedState = (Normal tt, s1)
    ∧ callApi (say "add a hat") (Some [imageFile]) s1 = (Normal tt, s2)
    ∧ callApi (say "add a hat") (Some [imageFile]) keyedState = (Normal tt, alone)
    ∧ log alone = [Requested d]
    ∧ log s2 = (log s1 ++ [Requested d])%list.
Proof.
  exact (callApi_independent_of_earlier_call keyedState (say "a fox") (say "add a hat")
           None (Some [imageFile])
           {["X-Team" := "art"; "Authorization" := "Bearer sk-1"]}
           {| role := "user"; content := "a fox" |}
           {| role := "user"; content := "add a hat" |}
           [("n", JsNumber 2); ("size", JsString "256x256")]
           eq_refl eq_refl eq_refl eq_refl).
Defined.

(** X13 on [exampleStore]: the template is object 0, the configuration
    object, left with [n] and [size]. *)
Lemma new_takes_config_object_example :
  ∃ template,
    (new exampleImports configuredAssistant None exampleStore []).1 = Normal tt
    ∧ _raw_body (this (new exampleImports configuredAssistant None exampleStore []).2) = 0%nat
    ∧ heap (new exampleImports configuredAssistant None exampleStore []).2 !! 0%nat
      = Some template
    ∧ Obj.keys template = ["n"; "size"].
Proof.
  destruct (new_takes_config_object_as_template exampleImports configuredAssistant None
              exampleStore [] 0%nat exampleConfig eq_refl eq_refl)
    as (template & Hrun & Hraw & Htemplate & _).
  exists template. split; [exact Hrun|]. split; [exact Hraw|]. split; [exact Htemplate|].
  vm_compute in Htemplate. by injection Htemplate as <-.
Defined.

(** X14 on a caller whose predicate refuses everything: the adapter
    refuses ["hello"], which its own predicate accepts. *)
Lemma new_takes_caller_predicate_example :
  canSendMessage "hello" None = true
  ∧ canSendMessage_ (this (new exampleImports strictAssistant None [] []).2) "hello" None
    = false.
Proof.
  split; [reflexivity|].
  rewrite (proj1 (new_takes_caller_predicate exampleImports strictAssistant None [] []
                    None eq_refl) (fun _ _ => false) eq_refl).
  reflexivity.
Defined.

(** X15 on a limit of -1. *)
Lemma preprocessBody_negative_limit_example :
  ∃ copy s' sent,
    preprocessBody 0%nat (messages (say "a fox"))
      (new exampleImports negativeAssistant None [] []).2 = (Normal copy, s')
    ∧ heap s' !! copy = Some sent
    ∧ Obj.get "prompt" sent = JsString "".
Proof.
  exact (preprocessBody_negative_limit exampleImports negativeAssistant None [] [] (-1)
           0%nat (messages (say "a fox")) {| role := "user"; content := "a fox" |} []
           eq_refl eq_refl eq_refl eq_refl ltac:(discriminate)).
Defined.

(** X16 on a response with a hosted entry and an inline entry. *)
Lemma extractResultData_results_example :
  ((∃ hosted, hosted ≠ ""
              ∧ ImageResult_url (EntryResult (ImageData.mk (Some "http://x") None))
                = Some hosted
              ∧ ImageResult_base64 (EntryResult (ImageData.mk (Some "http://x") None)) = None)
   ∨ (∃ payload,
        ImageResult_url (EntryResult (ImageData.mk (Some "http://x") None)) = None
        ∧ ImageResult_base64 (EntryResult (ImageData.mk (Some "http://x") None))
          = Some ("data:image/png;base64," ++ payload)))
  ∧ ((∃ hosted, hosted ≠ ""
                ∧ ImageResult_url (Base64Result "data:image/png;base64,AAA") = Some hosted
                ∧ ImageResult_base64 (Base64Result "data:image/png;base64,AAA") = None)
     ∨ (∃ payload,
          ImageResult_url (Base64Result "data:image/png;base64,AAA") = None
          ∧ ImageResult_base64 (Base64Result "data:image/png;base64,AAA")
            = Some ("data:image/png;base64," ++ payload))).
Proof.
  pose proof (extractResultData_results_are_url_or_base64 exampleImports
                {| OpenAIImageResult.data :=
                     [ImageData.mk (Some "http://x") None; ImageData.mk None (Some "AAA")];
                   OpenAIImageResult.error := None |}
                _ eq_refl) as Hall.
  split; apply Hall.
  - apply elem_of_cons. by left.
  - apply elem_of_cons. right. apply elem_of_cons. by left.
Defined.
